(** * Telemetry dashboard: browsing and ingestion interaction model

    A shallow embedding of the three React components that carry the state
    logic of the telemetry pages:

    - the paginated list controllers ([TelemetryTracesList],
      [TelemetryMetricsList], [TelemetryLogsList]), which are the same code up
      to the telemetry kind;
    - the upload form ([TelemetryUpload]);
    - the overview aggregator ([TelemetryOverview]).

    A component is modelled by its [useState] cells (a record), its setters
    (an inductive type of updates) and its handlers.  A handler is a closure
    of one render: it reads the state of the render that created it, and its
    setter calls act on the live state.  Handlers are therefore functions
    from the rendered state to a small effect program. *)

From Stdlib Require Import ZArith List String Ascii Bool Lia DecimalString.
Import ListNotations.
Local Open Scope string_scope.
Local Open Scope Z_scope.

(* ================================================================= *)
(** ** JavaScript values that cross the component boundary *)

(** What [JSON.parse] produces.  Numbers keep their lexeme: the components
    never compute with them. *)
#[local] Unset Elimination Schemes.
Inductive json : Type :=
| JNull
| JBool (b : bool)
| JNumber (lexeme : string)
| JString (s : string)
| JArray (elements : list json)
| JObject (members : list (string * json)).
#[local] Set Elimination Schemes.

(** [Array.isArray(v)] *)
Definition Array_isArray (v : json) : bool :=
  match v with JArray _ => true | _ => false end.

(** A thrown value (or the reason of a rejected promise): an instance of
    [Error] with its [message], or anything else. *)
Inductive thrown : Type :=
| JsError (message : string)
| JsOther.

(** [err instanceof Error ? err.message : fallback] *)
Definition message_or (fallback : string) (err : thrown) : string :=
  match err with
  | JsError message => message
  | JsOther => fallback
  end.

(** [s || undefined] on a string: the empty string is falsy. *)
Definition or_undefined (s : string) : option string :=
  if String.eqb s "" then None else Some s.

(** Template interpolation of an array length: its decimal numeral. *)
Definition number_to_string (n : nat) : string :=
  NilZero.string_of_uint (Nat.to_uint n).

(* ================================================================= *)
(** ** types/index.ts: telemetry interfaces *)

(** ['traces' | 'metrics' | 'logs'] *)
Inductive kind : Type := Traces | Metrics | Logs.

Definition kind_eqb (a b : kind) : bool :=
  match a, b with
  | Traces, Traces | Metrics, Metrics | Logs, Logs => true
  | _, _ => false
  end.

(** [Record<string, string>] *)
Definition string_record : Type := list (string * string).

Record TelemetryTraceResponse : Type := {
  trace_id : string;
  span_count : Z;
  trace_upload_date : string;
  trace_uploaded_by : string;
  trace_tag_ids : list string;
  trace_metadata : option string_record
}.

Record TelemetryMetricResponse : Type := {
  metric_id : string;
  metric_name : string;
  metric_type : string;
  data_point_count : Z;
  metric_upload_date : string;
  metric_uploaded_by : string;
  metric_tag_ids : list string;
  metric_metadata : option string_record
}.

Record TelemetryLogResponse : Type := {
  log_id : string;
  log_timestamp : string;
  log_severity : option string;
  log_body : string;
  log_upload_date : string;
  log_uploaded_by : string;
  log_tag_ids : list string;
  log_metadata : option string_record
}.

(** The summary type of a kind. *)
Definition Summary (k : kind) : Type :=
  match k with
  | Traces => TelemetryTraceResponse
  | Metrics => TelemetryMetricResponse
  | Logs => TelemetryLogResponse
  end.

(** [ListTelemetryTracesResponse], [ListTelemetryMetricsResponse] and
    [ListTelemetryLogsResponse]: the same four fields, the first one named
    after the kind ([traces], [metrics], [logs]). *)
Record ListResponse (k : kind) : Type := {
  resp_items : list (Summary k);
  resp_total : Z;
  resp_skip : Z;
  resp_limit : Z
}.
Arguments resp_items {k} _.
Arguments resp_total {k} _.
Arguments resp_skip {k} _.
Arguments resp_limit {k} _.

(** [ListTelemetryTracesParams], [ListTelemetryMetricsParams] and
    [ListTelemetryLogsParams].  Every field but the organization is optional;
    [param_search] is [nameSearch] for traces and metrics and [severity] for
    logs. *)
Record ListParams : Type := {
  param_organizationId : string;
  param_skip : option Z;
  param_limit : option Z;
  param_tagIds : option string;
  param_search : option string
}.

(** The items echoed by an upload (the element types of
    [UploadTelemetryTracesResponse.traces] and its two siblings). *)
Record CreatedTrace : Type := {
  created_trace_id : string;
  created_span_count : Z;
  created_trace_tag_ids : list string;
  created_trace_metadata : option string_record
}.

Record CreatedMetric : Type := {
  created_metric_id : string;
  created_metric_name : string;
  created_metric_type : string;
  created_data_point_count : Z;
  created_metric_tag_ids : list string;
  created_metric_metadata : option string_record
}.

Record CreatedLog : Type := {
  created_log_id : string;
  created_log_timestamp : string;
  created_log_severity : option string;
  created_log_body : string;
  created_log_tag_ids : list string;
  created_log_metadata : option string_record
}.

Definition Created (k : kind) : Type :=
  match k with
  | Traces => CreatedTrace
  | Metrics => CreatedMetric
  | Logs => CreatedLog
  end.

(** [UploadTelemetry<Kind>Response]: one field, named after the kind. *)
Record UploadResponse (k : kind) : Type := {
  uploaded : list (Created k)
}.
Arguments uploaded {k} _.

(** [UploadTelemetry<Kind>Params].  The form passes whatever [JSON.parse]
    returned, so the payloads are JSON values. *)
Record UploadParams : Type := {
  upload_organizationId : string;
  upload_items : list json
}.

(* ================================================================= *)
(** ** The API client, seen from the components *)

(** The six functions imported from [@/utils/api], indexed by the type their
    promise resolves to. *)
Inductive api : Type -> Type :=
| listTelemetryApi (k : kind) (p : ListParams) : api (ListResponse k)
| uploadTelemetryApi (k : kind) (p : UploadParams) : api (UploadResponse k).

Definition listTelemetryTracesApi := listTelemetryApi Traces.
Definition listTelemetryMetricsApi := listTelemetryApi Metrics.
Definition listTelemetryLogsApi := listTelemetryApi Logs.
Definition uploadTelemetryTracesApi := uploadTelemetryApi Traces.
Definition uploadTelemetryMetricsApi := uploadTelemetryApi Metrics.
Definition uploadTelemetryLogsApi := uploadTelemetryApi Logs.

(** Modelled from the spec: the API client ([utils/api]) is not part of the
    sources; its contract gives [skip] the default 0 when the caller leaves
    it out. *)
Definition effective_skip (p : ListParams) : Z :=
  match param_skip p with Some n => n | None => 0 end.

(** A call made to the API client. *)
Inductive call : Type :=
| Called {R : Type} (q : api R).

(** How a promise settles: fulfilled with a value or rejected with a reason. *)
Definition outcome (R : Type) : Type := (R + thrown)%type.

(** Promise expressions: one API call, or [Promise.all] of three. *)
Inductive promise : Type -> Type :=
| Invoke {R : Type} (q : api R) : promise R
| Promise_all {A B C : Type}
    (a : promise A) (b : promise B) (c : promise C) : promise (A * B * C).

(** The calls made when the promise expression is evaluated, left to right. *)
Fixpoint calls_of {R : Type} (p : promise R) : list call :=
  match p with
  | Invoke q => [Called q]
  | Promise_all a b c => (calls_of a ++ calls_of b ++ calls_of c)%list
  end.

(** The backend as the components see it: how each call settles, and when
    (a logical time, used only to order rejections under [Promise.all]). *)
Record backend : Type := {
  answer : forall R : Type, api R -> outcome R;
  settled_at : forall R : Type, api R -> nat
}.

(** Of two rejections the earlier one wins, the left one on a tie. *)
Definition earlier (x y : option (thrown * nat)) : option (thrown * nat) :=
  match x, y with
  | Some (e1, t1), Some (e2, t2) =>
      if Nat.leb t1 t2 then Some (e1, t1) else Some (e2, t2)
  | Some r, None => Some r
  | None, y => y
  end.

Definition rejection {R : Type} (s : outcome R * nat) : option (thrown * nat) :=
  match s with
  | (inr e, t) => Some (e, t)
  | (inl _, _) => None
  end.

(** [Promise.all]: fulfilled with the three values when all three are
    fulfilled, otherwise rejected with the reason of the first promise to
    reject. *)
Definition all_settle {A B C : Type}
  (a : outcome A * nat) (b : outcome B * nat) (c : outcome C * nat)
  : outcome (A * B * C) * nat :=
  match a, b, c with
  | (inl x, ta), (inl y, tb), (inl z, tc) =>
      (inl (x, y, z), Nat.max ta (Nat.max tb tc))
  | _, _, _ =>
      match earlier (rejection a) (earlier (rejection b) (rejection c)) with
      | Some (e, t) => (inr e, t)
      | None => (inr JsOther, 0%nat)
      end
  end.

Fixpoint settle (B : backend) {R : Type} (p : promise R) : outcome R * nat :=
  match p with
  | Invoke q => (answer B _ q, settled_at B _ q)
  | Promise_all a b c => all_settle (settle B a) (settle B b) (settle B c)
  end.

(* ================================================================= *)
(** ** Handler bodies as effect programs *)

(** A handler body over setters [U]: it returns, throws, calls a setter, or
    awaits a promise and goes on with the way it settled. *)
Inductive prog (U A : Type) : Type :=
| Ret (a : A)
| Throw (e : thrown)
| Upd (u : U) (k : prog U A)
| Await {R : Type} (p : promise R) (k : outcome R -> prog U A).
Arguments Ret {U A} a.
Arguments Throw {U A} e.
Arguments Upd {U A} u k.
Arguments Await {U A R} p k.

Fixpoint bind {U A B : Type} (m : prog U A) (f : A -> prog U B) : prog U B :=
  match m with
  | Ret a => f a
  | Throw e => Throw e
  | Upd u k => Upd u (bind k f)
  | Await p k => Await p (fun o => bind (k o) f)
  end.

Declare Scope prog_scope.
Delimit Scope prog_scope with prog.
Notation "x <- m ;; k" := (bind m (fun x => k))
  (at level 61, m at next level, right associativity) : prog_scope.
Notation "m ;; k" := (bind m (fun _ => k))
  (at level 61, right associativity) : prog_scope.

(** A setter call as a statement. *)
Definition set {U : Type} (u : U) : prog U unit := Upd u (Ret tt).

(** [await p]: the value of a fulfilled promise; a rejection is thrown. *)
Definition await {U R : Type} (p : promise R) : prog U R :=
  Await p (fun o => match o with inl r => Ret r | inr e => Throw e end).

(** [try { m } catch (err) { h err }] *)
Fixpoint try_catch {U A : Type} (m : prog U A) (h : thrown -> prog U A)
  : prog U A :=
  match m with
  | Ret a => Ret a
  | Throw e => h e
  | Upd u k => Upd u (try_catch k h)
  | Await p k => Await p (fun o => try_catch (k o) h)
  end.

(** [try { m } finally { f }]: [f] runs on both exits and the exit of [m] is
    kept. *)
Fixpoint finally {U A : Type} (m : prog U A) (f : prog U unit) : prog U A :=
  match m with
  | Ret a => bind f (fun _ => Ret a)
  | Throw e => bind f (fun _ => Throw e)
  | Upd u k => Upd u (finally k f)
  | Await p k => Await p (fun o => finally (k o) f)
  end.

(** What a handler did, in order: setter calls and API calls. *)
Inductive event (U : Type) : Type :=
| Did (u : U)
| Sent (c : call).
Arguments Did {U} u.
Arguments Sent {U} c.

Definition sent_of {U : Type} (cs : list call) : list (event U) :=
  map Sent cs.

Fixpoint requests {U : Type} (tr : list (event U)) : list call :=
  match tr with
  | [] => []
  | Did _ :: tr => requests tr
  | Sent c :: tr => c :: requests tr
  end.

Fixpoint updates {U : Type} (tr : list (event U)) : list U :=
  match tr with
  | [] => []
  | Did u :: tr => u :: updates tr
  | Sent _ :: tr => updates tr
  end.

(** Where a handler stands when it gives control back to the event loop. *)
Inductive suspended (U A : Type) : Type :=
| Finished (r : outcome A)
| Pending {R : Type} (p : promise R) (k : outcome R -> prog U A).
Arguments Finished {U A} r.
Arguments Pending {U A R} p k.

Section Execution.

Context {U St : Type}.
Variable apply : U -> St -> St.

(** The synchronous part of a handler: everything up to its first [await].
    The promise awaited has been created, so its calls have been made. *)
Fixpoint start {A : Type} (m : prog U A) (s : St)
  : St * list (event U) * suspended U A :=
  match m with
  | Ret a => (s, [], Finished (inl a))
  | Throw e => (s, [], Finished (inr e))
  | Upd u k =>
      let '(s', tr, r) := start k (apply u s) in (s', Did u :: tr, r)
  | Await p k => (s, sent_of (calls_of p), Pending p k)
  end.

Variable B : backend.

(** A handler run to completion against backend [B], with nothing else
    touching the state meanwhile. *)
Fixpoint run {A : Type} (m : prog U A) (s : St)
  : St * list (event U) * outcome A :=
  match m with
  | Ret a => (s, [], inl a)
  | Throw e => (s, [], inr e)
  | Upd u k =>
      let '(s', tr, r) := run k (apply u s) in (s', Did u :: tr, r)
  | Await p k =>
      let '(s', tr, r) := run (k (fst (settle B p))) s in
      (s', (sent_of (calls_of p) ++ tr)%list, r)
  end.

(** Resuming a suspended handler once its promise has settled. *)
Definition resume {A : Type} (w : St * list (event U) * suspended U A)
  : St * list (event U) * outcome A :=
  match w with
  | (s, tr, Finished r) => (s, tr, r)
  | (s, tr, Pending p k) =>
      let '(s', tr', r) := run (k (fst (settle B p))) s in
      (s', (tr ++ tr')%list, r)
  end.

End Execution.

Definition state_of {St E A : Type} (w : St * E * A) : St := fst (fst w).
Definition trace_of {St E A : Type} (w : St * E * A) : E := snd (fst w).
Definition result_of {St E A : Type} (w : St * E * A) : A := snd w.

(* ================================================================= *)
(** ** String methods of the JavaScript runtime *)

(** [toLowerCase], [toUpperCase] and [trim] on strings of ASCII characters,
    where they are the methods of the runtime; other characters are left
    alone here, so statements that use them ask for ASCII strings. *)
Module JsString.

Definition is_upper (c : ascii) : bool :=
  let n := N_of_ascii c in ((65 <=? n) && (n <=? 90))%N.

Definition is_lower (c : ascii) : bool :=
  let n := N_of_ascii c in ((97 <=? n) && (n <=? 122))%N.

Definition lower_char (c : ascii) : ascii :=
  if is_upper c then ascii_of_N (N_of_ascii c + 32) else c.

Definition upper_char (c : ascii) : ascii :=
  if is_lower c then ascii_of_N (N_of_ascii c - 32) else c.

Fixpoint map_chars (f : ascii -> ascii) (s : string) : string :=
  match s with
  | EmptyString => EmptyString
  | String c r => String (f c) (map_chars f r)
  end.

Definition toLowerCase (s : string) : string := map_chars lower_char s.

Definition toUpperCase (s : string) : string := map_chars upper_char s.

(** Every character is an ASCII character. *)
Fixpoint ascii_only (s : string) : bool :=
  match s with
  | EmptyString => true
  | String c r => (N_of_ascii c <? 128)%N && ascii_only r
  end.

(** The ASCII white space: tab, line feed, vertical tab, form feed,
    carriage return, space. *)
Definition is_space (c : ascii) : bool :=
  let n := N_of_ascii c in (((9 <=? n) && (n <=? 13)) || (n =? 32))%N.

Fixpoint trim_start (l : list ascii) : list ascii :=
  match l with
  | c :: r => if is_space c then trim_start r else l
  | [] => []
  end.

Definition trim (s : string) : string :=
  string_of_list_ascii
    (rev (trim_start (rev (trim_start (list_ascii_of_string s))))).

End JsString.

(* ================================================================= *)
(** ** TelemetryTracesList, TelemetryMetricsList, TelemetryLogsList *)

(** The three list components are the same code up to the kind [k]: the API
    function called, the name of the items cell ([traces], [metrics],
    [logs]), the fallback error text, and the name of the second filter
    ([nameSearch] for traces and metrics, [severityFilter] for logs, sent as
    [nameSearch] and [severity]). *)
Module TelemetryList.

Section Controller.

Variable organizationId : string.
Variable k : kind.

(** The [useState] cells.  [limit] is a cell without a setter. *)
Record State : Type := {
  items : list (Summary k);
  loading : bool;
  error : option string;
  total : Z;
  skip : Z;
  tagFilter : string;
  nameSearch : string
}.

Definition limit : Z := 20.

Definition initial : State :=
  {| items := []; loading := true; error := None; total := 0; skip := 0;
     tagFilter := ""; nameSearch := "" |}.

Inductive update : Type :=
| setItems (v : list (Summary k))
| setLoading (v : bool)
| setError (v : option string)
| setTotal (v : Z)
| setSkip (v : Z)
| setTagFilter (v : string)
| setNameSearch (v : string).

Definition apply (u : update) (s : State) : State :=
  match u with
  | setItems v =>
      {| items := v; loading := loading s; error := error s; total := total s;
         skip := skip s; tagFilter := tagFilter s; nameSearch := nameSearch s |}
  | setLoading v =>
      {| items := items s; loading := v; error := error s; total := total s;
         skip := skip s; tagFilter := tagFilter s; nameSearch := nameSearch s |}
  | setError v =>
      {| items := items s; loading := loading s; error := v; total := total s;
         skip := skip s; tagFilter := tagFilter s; nameSearch := nameSearch s |}
  | setTotal v =>
      {| items := items s; loading := loading s; error := error s; total := v;
         skip := skip s; tagFilter := tagFilter s; nameSearch := nameSearch s |}
  | setSkip v =>
      {| items := items s; loading := loading s; error := error s;
         total := total s; skip := v; tagFilter := tagFilter s;
         nameSearch := nameSearch s |}
  | setTagFilter v =>
      {| items := items s; loading := loading s; error := error s;
         total := total s; skip := skip s; tagFilter := v;
         nameSearch := nameSearch s |}
  | setNameSearch v =>
      {| items := items s; loading := loading s; error := error s;
         total := total s; skip := skip s; tagFilter := tagFilter s;
         nameSearch := v |}
  end.

(** The text of the [catch] branch when the thrown value is not an [Error]. *)
Definition load_failure : string :=
  match k with
  | Traces => "Failed to load traces"
  | Metrics => "Failed to load metrics"
  | Logs => "Failed to load logs"
  end.

(** The argument of the list call, built from the cells the closure holds. *)
Definition query (s : State) : ListParams :=
  {| param_organizationId := organizationId;
     param_skip := Some (skip s);
     param_limit := Some limit;
     param_tagIds := or_undefined (tagFilter s);
     param_search := or_undefined (nameSearch s) |}.

(** [fetchTraces] / [fetchMetrics] / [fetchLogs], as created by the render
    of state [s]. *)
Definition fetch (s : State) : prog update unit :=
  finally
    (try_catch
       (set (setLoading true) ;;
        response <- await (Invoke (listTelemetryApi k (query s))) ;;
        set (setItems (resp_items response)) ;;
        set (setTotal (resp_total response)))%prog
       (fun err => set (setError (Some (message_or load_failure err)))))
    (set (setLoading false)).

(** [handleSearch].  The call to the fetch function is the last statement
    and is not awaited: the handler is the function created by the same
    render, so it holds the same cells. *)
Definition handleSearch (s : State) : prog update unit :=
  (set (setSkip 0) ;; fetch s)%prog.

Definition handlePreviousPage (s : State) : prog update unit :=
  if 0 <? skip s then set (setSkip (Z.max 0 (skip s - limit))) else Ret tt.

Definition handleNextPage (s : State) : prog update unit :=
  if skip s + limit <? total s then set (setSkip (skip s + limit)) else Ret tt.

(** The [onChange] handlers of the two filter inputs. *)
Definition changeNameSearch (v : string) (_ : State) : prog update unit :=
  set (setNameSearch v).

Definition changeTagFilter (v : string) (_ : State) : prog update unit :=
  set (setTagFilter v).

(** The dependency list of [useCallback]: the fetch function is a new one,
    and the effect that calls it runs again, exactly when one of these
    changed between two renders.  The organization and [limit] cannot change
    while the component is mounted under this [organizationId]. *)
Definition same_deps (a b : State) : bool :=
  (skip a =? skip b) && String.eqb (tagFilter a) (tagFilter b)
  && String.eqb (nameSearch a) (nameSearch b).

(** One user event: the handler of the current render runs up to its first
    [await]; React renders the new state; when the dependencies changed the
    effect calls the new fetch function, which also runs up to its [await].
    The result is the state and what was done and sent during the event. *)
Definition dispatch (handler : State -> prog update unit) (s : State)
  : State * list (event update) :=
  let w1 := start apply (handler s) s in
  let s1 := state_of w1 in
  if same_deps s s1 then (s1, trace_of w1)
  else
    let w2 := start apply (fetch s1) s1 in
    (state_of w2, (trace_of w1 ++ trace_of w2)%list).

(** The page buttons. *)
Inductive page_button : Type := Previous | Next.

Definition page_handler (b : page_button) : State -> prog update unit :=
  match b with
  | Previous => handlePreviousPage
  | Next => handleNextPage
  end.

Definition press (b : page_button) (s : State) : State :=
  fst (dispatch (page_handler b) s).

(** The state after a sequence of presses, first press first. *)
Definition paging (bs : list page_button) (s : State) : State :=
  fold_left (fun s b => press b s) bs s.

(** [{error && (...)}]: what an error cell puts on the page; [null] and
    the empty string put nothing. *)
Definition shown_error (e : option string) : option string :=
  match e with
  | Some message => if String.eqb message "" then None else Some message
  | None => None
  end.

(** The pagination block: the numbers of "Showing a to b of n" and the
    [disabled] attributes of the two buttons. *)
Record Pagination : Type := {
  showing_from : Z;
  showing_to : Z;
  showing_of : Z;
  previous_disabled : bool;
  next_disabled : bool
}.

(** [{total > limit && (...)}] *)
Definition pagination (s : State) : option Pagination :=
  if limit <? total s
  then Some {| showing_from := skip s + 1;
               showing_to := Z.min (skip s + limit) (total s);
               showing_of := total s;
               previous_disabled := skip s =? 0;
               next_disabled := skip s + limit >=? total s |}
  else None.

(** What the component returns: the spinner alone, or the page with its
    error banner, the count of its heading, its rows (none: the "No ...
    found" text) and its pagination block. *)
Inductive view : Type :=
| Spinner
| Page (banner : option string) (heading : Z) (rows : list (Summary k))
    (pages : option Pagination).

Definition render (s : State) : view :=
  if loading s && (List.length (items s) =? 0)%nat then Spinner
  else Page (shown_error (error s)) (total s) (items s) (pagination s).

(** Everything the component can run: the effect's fetch and the handlers
    of the Search button, the page buttons and the two filter inputs. *)
Inductive action : Type :=
| Refresh
| Search
| Turn (b : page_button)
| TypeName (v : string)
| TypeTags (v : string).

Definition handler (a : action) : State -> prog update unit :=
  match a with
  | Refresh => fetch
  | Search => handleSearch
  | Turn b => page_handler b
  | TypeName v => changeNameSearch v
  | TypeTags v => changeTagFilter v
  end.

(** The state after a list of setter calls, first call first. *)
Definition apply_all (us : list update) (s : State) : State :=
  fold_left (fun s u => apply u s) us s.

(** What the page buttons maintain, for a collection of [t] records. *)
Definition on_a_page (t : Z) (s : State) : Prop :=
  total s = t /\ 0 <= skip s /\ (limit | skip s) /\ (0 < t -> skip s < t).

End Controller.

Arguments items {k} _.
Arguments loading {k} _.
Arguments error {k} _.
Arguments total {k} _.
Arguments skip {k} _.
Arguments tagFilter {k} _.
Arguments nameSearch {k} _.
Arguments setItems {k} v.
Arguments setLoading {k} v.
Arguments setError {k} v.
Arguments setTotal {k} v.
Arguments setSkip {k} v.
Arguments setTagFilter {k} v.
Arguments setNameSearch {k} v.
Arguments apply {k} u s.
Arguments same_deps {k} a b.
Arguments handlePreviousPage {k} s.
Arguments handleNextPage {k} s.
Arguments page_handler {k} b.
Arguments query organizationId {k} s.
Arguments fetch organizationId {k} s.
Arguments handleSearch organizationId {k} s.
Arguments changeNameSearch {k} v _.
Arguments changeTagFilter {k} v _.
Arguments dispatch organizationId {k} handler s.
Arguments press organizationId {k} b s.
Arguments paging organizationId {k} bs s.
Arguments on_a_page {k} t s.

Arguments shown_error e : simpl nomatch.
Arguments pagination {k} s.
Arguments render {k} s.
Arguments handler organizationId {k} a _.
Arguments apply_all {k} us s.
Arguments Spinner {k}.
Arguments Page {k} banner heading rows pages.


(** [getMetricTypeColor] of the metrics list. *)
Definition getMetricTypeColor (type : string) : string :=
  let t := JsString.toLowerCase type in
  if String.eqb t "counter" then "bg-blue-100 text-blue-800"
  else if String.eqb t "gauge" then "bg-green-100 text-green-800"
  else if String.eqb t "histogram" then "bg-purple-100 text-purple-800"
  else if String.eqb t "summary" then "bg-yellow-100 text-yellow-800"
  else "bg-gray-100 text-gray-800".

(** [getSeverityColor] of the logs list; [!severity] holds for a missing
    severity and for the empty string. *)
Definition getSeverityColor (severity : option string) : string :=
  match severity with
  | None => "bg-gray-100 text-gray-800"
  | Some severity =>
      if String.eqb severity "" then "bg-gray-100 text-gray-800"
      else
        let t := JsString.toUpperCase severity in
        if String.eqb t "ERROR" then "bg-red-100 text-red-800"
        else if String.eqb t "WARN" || String.eqb t "WARNING"
        then "bg-yellow-100 text-yellow-800"
        else if String.eqb t "INFO" then "bg-blue-100 text-blue-800"
        else if String.eqb t "DEBUG" then "bg-gray-100 text-gray-800"
        else if String.eqb t "TRACE" then "bg-purple-100 text-purple-800"
        else "bg-gray-100 text-gray-800"
  end.

Definition fetchTraces (organizationId : string) :=
  @fetch organizationId Traces.
Definition fetchMetrics (organizationId : string) :=
  @fetch organizationId Metrics.
Definition fetchLogs (organizationId : string) :=
  @fetch organizationId Logs.

End TelemetryList.

(* ================================================================= *)
(** ** TelemetryUpload *)

Module TelemetryUpload.

Section Form.

(** [JSON.parse] belongs to the JavaScript runtime: it returns a value or
    throws a [SyntaxError], an [Error] whose message is given here. *)
Variable JSON_parse : string -> json + string.
Variable organizationId : string.

Record State : Type := {
  activeTab : kind;
  loading : bool;
  error : option string;
  success : option string;
  tracesData : string;
  metricsData : string;
  logsData : string
}.

Definition initial : State :=
  {| activeTab := Traces; loading := false; error := None; success := None;
     tracesData := ""; metricsData := ""; logsData := "" |}.

Inductive update : Type :=
| setActiveTab (v : kind)
| setLoading (v : bool)
| setError (v : option string)
| setSuccess (v : option string)
| setTracesData (v : string)
| setMetricsData (v : string)
| setLogsData (v : string).

Definition apply (u : update) (s : State) : State :=
  match u with
  | setActiveTab v =>
      {| activeTab := v; loading := loading s; error := error s;
         success := success s; tracesData := tracesData s;
         metricsData := metricsData s; logsData := logsData s |}
  | setLoading v =>
      {| activeTab := activeTab s; loading := v; error := error s;
         success := success s; tracesData := tracesData s;
         metricsData := metricsData s; logsData := logsData s |}
  | setError v =>
      {| activeTab := activeTab s; loading := loading s; error := v;
         success := success s; tracesData := tracesData s;
         metricsData := metricsData s; logsData := logsData s |}
  | setSuccess v =>
      {| activeTab := activeTab s; loading := loading s; error := error s;
         success := v; tracesData := tracesData s;
         metricsData := metricsData s; logsData := logsData s |}
  | setTracesData v =>
      {| activeTab := activeTab s; loading := loading s; error := error s;
         success := success s; tracesData := v;
         metricsData := metricsData s; logsData := logsData s |}
  | setMetricsData v =>
      {| activeTab := activeTab s; loading := loading s; error := error s;
         success := success s; tracesData := tracesData s;
         metricsData := v; logsData := logsData s |}
  | setLogsData v =>
      {| activeTab := activeTab s; loading := loading s; error := error s;
         success := success s; tracesData := tracesData s;
         metricsData := metricsData s; logsData := v |}
  end.

(** [JSON.parse(text)] as a statement. *)
Definition parse (text : string) : prog update json :=
  match JSON_parse text with
  | inl v => Ret v
  | inr message => Throw (JsError message)
  end.

(** [Array.isArray(v) ? v : [v]] *)
Definition as_batch (v : json) : list json :=
  match v with
  | JArray elements => elements
  | _ => [v]
  end.

Definition upload_params (v : json) : UploadParams :=
  {| upload_organizationId := organizationId; upload_items := as_batch v |}.

Definition handleUpload (s : State) : prog update unit :=
  (set (setLoading true) ;;
   set (setError None) ;;
   set (setSuccess None) ;;
   finally
     (try_catch
        match activeTab s with
        | Traces =>
            traces <- parse (tracesData s) ;;
            result <- await (Invoke (uploadTelemetryTracesApi
                                       (upload_params traces))) ;;
            set (setSuccess (Some ("Successfully uploaded "
              ++ number_to_string (List.length (uploaded result))
              ++ " trace(s)"))) ;;
            set (setTracesData "")
        | Metrics =>
            metrics <- parse (metricsData s) ;;
            result <- await (Invoke (uploadTelemetryMetricsApi
                                       (upload_params metrics))) ;;
            set (setSuccess (Some ("Successfully uploaded "
              ++ number_to_string (List.length (uploaded result))
              ++ " metric(s)"))) ;;
            set (setMetricsData "")
        | Logs =>
            logs <- parse (logsData s) ;;
            result <- await (Invoke (uploadTelemetryLogsApi
                                       (upload_params logs))) ;;
            set (setSuccess (Some ("Successfully uploaded "
              ++ number_to_string (List.length (uploaded result))
              ++ " log(s)"))) ;;
            set (setLogsData "")
        end
        (fun err => set (setError (Some (message_or "Upload failed" err)))))
     (set (setLoading false)))%prog.

Definition getCurrentData (s : State) : string :=
  match activeTab s with
  | Traces => tracesData s
  | Metrics => metricsData s
  | Logs => logsData s
  end.

Definition setCurrentData (data : string) (s : State) : prog update unit :=
  match activeTab s with
  | Traces => set (setTracesData data)
  | Metrics => set (setMetricsData data)
  | Logs => set (setLogsData data)
  end.

(** The input buffer of a kind, whether or not its tab is the active one. *)
Definition buffer (k : kind) (s : State) : string :=
  match k with
  | Traces => tracesData s
  | Metrics => metricsData s
  | Logs => logsData s
  end.

(** The word the success message uses for a kind. *)
Definition noun (k : kind) : string :=
  match k with
  | Traces => "trace"
  | Metrics => "metric"
  | Logs => "log"
  end.

(** The setter of the buffer of a kind. *)
Definition setBuffer (k : kind) (v : string) : update :=
  match k with
  | Traces => setTracesData v
  | Metrics => setMetricsData v
  | Logs => setLogsData v
  end.

(** The text set on success for [n] echoed items of kind [k]. *)
Definition uploaded_message (k : kind) (n : nat) : string :=
  "Successfully uploaded " ++ number_to_string n ++ " " ++ noun k ++ "(s)".

(** Three more things of the runtime: [JSON.stringify(v, null, 2)],
    [String.prototype.trim], and the text [new Date().toISOString()] gives
    when the sample is built. *)
Variable JSON_stringify : json -> string.
Variable trim : string -> string.
Variable now : string.

(** [{ key: k, value: { stringValue: v } }] *)
Definition attribute (key value : string) : json :=
  JObject [("key", JString key);
           ("value", JObject [("stringValue", JString value)])].

(** The three object literals of [getSampleData]. *)
Definition sample_trace : json :=
  JObject
    [("resource_spans",
      JArray
        [JObject
           [("resource",
             JObject
               [("attributes",
                 JArray [attribute "service.name" "example-service";
                         attribute "service.version" "1.0.0"])]);
            ("scope_spans",
             JArray
               [JObject
                  [("scope",
                    JObject [("name", JString "example-instrumentation");
                             ("version", JString "1.0.0")]);
                   ("spans",
                    JArray
                      [JObject
                         [("traceId",
                           JString "12345678901234567890123456789012");
                          ("spanId", JString "1234567890123456");
                          ("name", JString "example-span");
                          ("kind", JString "SPAN_KIND_SERVER");
                          ("startTimeUnixNano", JString "1640995200000000000");
                          ("endTimeUnixNano", JString "1640995201000000000");
                          ("attributes",
                           JArray [attribute "http.method" "GET";
                                   attribute "http.url" "/example"]);
                          ("status",
                           JObject [("code", JString "STATUS_CODE_OK")])]])]])]]);
     ("tag_ids", JArray []);
     ("metadata", JObject [("source", JString "manual-upload")])].

Definition sample_metric : json :=
  JObject
    [("name", JString "example_counter");
     ("description", JString "An example counter metric");
     ("unit", JString "1");
     ("type", JString "counter");
     ("data_points",
      JArray
        [JObject [("timeUnixNano", JString "1640995200000000000");
                  ("value", JObject [("asInt", JString "1")])]]);
     ("resource",
      JObject
        [("attributes",
          JArray [attribute "service.name" "example-service"])]);
     ("tag_ids", JArray []);
     ("metadata", JObject [("source", JString "manual-upload")])].

Definition sample_log : json :=
  JObject
    [("timestamp", JString now);
     ("severity", JString "INFO");
     ("body", JString "Example log message");
     ("attributes",
      JObject [("logger.name", JString "example-logger");
               ("thread.id", JNumber "123");
               ("level", JString "INFO")]);
     ("resource",
      JObject [("service.name", JString "example-service");
               ("service.version", JString "1.0.0")]);
     ("trace_id", JString "12345678901234567890123456789012");
     ("span_id", JString "1234567890123456");
     ("tag_ids", JArray []);
     ("metadata", JObject [("source", JString "manual-upload")])].

Definition sample (k : kind) : json :=
  match k with
  | Traces => sample_trace
  | Metrics => sample_metric
  | Logs => sample_log
  end.

Definition getSampleData (s : State) : string :=
  match activeTab s with
  | Traces => JSON_stringify sample_trace
  | Metrics => JSON_stringify sample_metric
  | Logs => JSON_stringify sample_log
  end.

Definition loadSampleData (s : State) : prog update unit :=
  let sample := getSampleData s in
  match activeTab s with
  | Traces => set (setTracesData sample)
  | Metrics => set (setMetricsData sample)
  | Logs => set (setLogsData sample)
  end.

(** The [onClick] of a tab button. *)
Definition selectTab (k : kind) (_ : State) : prog update unit :=
  set (setActiveTab k).

(** The [disabled] attribute of the Upload button:
    [loading || !getCurrentData().trim()]. *)
Definition upload_disabled (s : State) : bool :=
  loading s || String.eqb (trim (getCurrentData s)) "".

(** A user event on the form: the handler of the current render runs up
    to its first [await].  The form has no effect to run afterwards. *)
Definition act (h : State -> prog update unit) (s : State) : State :=
  state_of (start apply (h s) s).

End Form.

End TelemetryUpload.

(* ================================================================= *)
(** ** TelemetryOverview *)

Module TelemetryOverview.

Section Aggregator.

Variable organizationId : string.

Record State : Type := {
  tracesData : option (ListResponse Traces);
  metricsData : option (ListResponse Metrics);
  logsData : option (ListResponse Logs);
  loading : bool;
  error : option string
}.

Definition initial : State :=
  {| tracesData := None; metricsData := None; logsData := None;
     loading := true; error := None |}.

Inductive update : Type :=
| setTracesData (v : option (ListResponse Traces))
| setMetricsData (v : option (ListResponse Metrics))
| setLogsData (v : option (ListResponse Logs))
| setLoading (v : bool)
| setError (v : option string).

Definition apply (u : update) (s : State) : State :=
  match u with
  | setTracesData v =>
      {| tracesData := v; metricsData := metricsData s; logsData := logsData s;
         loading := loading s; error := error s |}
  | setMetricsData v =>
      {| tracesData := tracesData s; metricsData := v; logsData := logsData s;
         loading := loading s; error := error s |}
  | setLogsData v =>
      {| tracesData := tracesData s; metricsData := metricsData s;
         logsData := v;
         loading := loading s; error := error s |}
  | setLoading v =>
      {| tracesData := tracesData s; metricsData := metricsData s;
         logsData := logsData s; loading := v; error := error s |}
  | setError v =>
      {| tracesData := tracesData s; metricsData := metricsData s;
         logsData := logsData s; loading := loading s; error := v |}
  end.

(** [{ organizationId, limit: 5 }] *)
Definition overview_query : ListParams :=
  {| param_organizationId := organizationId;
     param_skip := None;
     param_limit := Some 5;
     param_tagIds := None;
     param_search := None |}.

Definition fetchOverviewData : prog update unit :=
  finally
    (try_catch
       (set (setLoading true) ;;
        all <-
          await (Promise_all
                   (Invoke (listTelemetryTracesApi overview_query))
                   (Invoke (listTelemetryMetricsApi overview_query))
                   (Invoke (listTelemetryLogsApi overview_query))) ;;
        let '(traces, metrics, logs) := all in
        set (setTracesData (Some traces)) ;;
        set (setMetricsData (Some metrics)) ;;
        set (setLogsData (Some logs)))%prog
       (fun err =>
          set (setError
                 (Some (message_or "Failed to load telemetry data" err)))))
    (set (setLoading false)).

(** What the component returns: the spinner, the error panel alone, or the
    cards and recent-activity lists fed by the three data cells. *)
Inductive view : Type :=
| Spinner
| ErrorPanel (message : string)
| Dashboard (traces : option (ListResponse Traces))
    (metrics : option (ListResponse Metrics))
    (logs : option (ListResponse Logs)).

(** [if (loading) ...; if (error) ...; return ...]: [null] and the empty
    string are falsy. *)
Definition render (s : State) : view :=
  if loading s then Spinner
  else
    match error s with
    | Some message =>
        if String.eqb message ""
        then Dashboard (tracesData s) (metricsData s) (logsData s)
        else ErrorPanel message
    | None => Dashboard (tracesData s) (metricsData s) (logsData s)
    end.

(** How the [Promise.all] of the three list calls settles against a
    backend. *)
Definition overview_settled (B : backend)
  : outcome (ListResponse Traces * ListResponse Metrics * ListResponse Logs) :=
  fst (settle B
         (Promise_all
            (Invoke (listTelemetryTracesApi overview_query))
            (Invoke (listTelemetryMetricsApi overview_query))
            (Invoke (listTelemetryLogsApi overview_query)))).

End Aggregator.

End TelemetryOverview.

(* ================================================================= *)
(** ** The telemetry page (app/orgs/[organizationId]/telemetry/page.tsx) *)

Module TelemetryPage.

(** The five components the page can mount. *)
Inductive panel : Type :=
| Overview
| TracesList
| MetricsList
| LogsList
| Upload.

(** [searchParams.get('tab') || 'overview']: the parameter may be missing,
    and an empty one is falsy. *)
Definition tab (param : option string) : string :=
  match param with
  | Some t => if String.eqb t "" then "overview" else t
  | None => "overview"
  end.

(** [{tab === id && <Component />}] *)
Definition mounted_if (t id : string) (p : panel) : list panel :=
  if String.eqb t id then [p] else [].

(** The components mounted for a tab, in the order of the five tab
    panels. *)
Definition mounted (t : string) : list panel :=
  (mounted_if t "overview" Overview
   ++ mounted_if t "traces" TracesList
   ++ mounted_if t "metrics" MetricsList
   ++ mounted_if t "logs" LogsList
   ++ mounted_if t "upload" Upload)%list.

(** The [id]s of the tab buttons. *)
Definition tab_ids : list string :=
  ["overview"; "traces"; "metrics"; "logs"; "upload"].

(** The address [handleTabChange] pushes to the router. *)
Definition handleTabChange (organizationId newValue : string) : string :=
  "/orgs/" ++ organizationId ++ "/telemetry?tab=" ++ newValue.

End TelemetryPage.

(* ================================================================= *)
(** ** A reference [JSON.parse] *)

(** The components are stated over any [JSON.parse].  This one follows the
    JSON grammar (RFC 8259) and serves to run them on concrete buffers.  It
    keeps every member of an object, in order, and does not pair surrogate
    escapes. *)
Module JSON.

Local Open Scope char_scope.

Definition quote : ascii := "034".
Definition backslash : ascii := "092".

Definition is_ws (c : ascii) : bool :=
  Ascii.eqb c " " || Ascii.eqb c "009" || Ascii.eqb c "010"
  || Ascii.eqb c "013".

Definition is_digit (c : ascii) : bool :=
  let n := N_of_ascii c in ((48 <=? n) && (n <=? 57))%N.

Definition is_control (c : ascii) : bool :=
  (N_of_ascii c <? 32)%N.

Fixpoint skip_ws (l : list ascii) : list ascii :=
  match l with
  | c :: r => if is_ws c then skip_ws r else l
  | [] => []
  end.

(** The longest prefix of characters satisfying [p], and the rest. *)
Fixpoint span (p : ascii -> bool) (l : list ascii) : list ascii * list ascii :=
  match l with
  | c :: r => if p c then let (a, b) := span p r in (c :: a, b) else ([], l)
  | [] => ([], [])
  end.

(** [l] without the prefix [word], when it starts with it. *)
Fixpoint strip (word l : list ascii) : option (list ascii) :=
  match word, l with
  | [], _ => Some l
  | w :: ws, c :: r => if Ascii.eqb w c then strip ws r else None
  | _ :: _, [] => None
  end.

Definition digits (l : list ascii) : option (list ascii * list ascii) :=
  match span is_digit l with
  | ([], _) => None
  | (ds, r) => Some (ds, r)
  end.

Definition integer_part (l : list ascii) : option (list ascii * list ascii) :=
  match l with
  | c :: r => if Ascii.eqb c "0" then Some (["0"], r) else digits l
  | [] => None
  end.

Definition fraction_part (l : list ascii) : option (list ascii * list ascii) :=
  match l with
  | c :: r =>
      if Ascii.eqb c "."
      then match digits r with
           | Some (ds, r') => Some (c :: ds, r')
           | None => None
           end
      else Some ([], l)
  | [] => Some ([], l)
  end.

Definition exponent_part (l : list ascii) : option (list ascii * list ascii) :=
  match l with
  | c :: r =>
      if Ascii.eqb c "e" || Ascii.eqb c "E"
      then
        let (sign, r1) :=
          match r with
          | d :: r' =>
              if Ascii.eqb d "+" || Ascii.eqb d "-" then ([d], r') else ([], r)
          | [] => ([], r)
          end in
        match digits r1 with
        | Some (ds, r') => Some ((c :: sign ++ ds)%list, r')
        | None => None
        end
      else Some ([], l)
  | [] => Some ([], l)
  end.

Definition number (l : list ascii) : option (list ascii * list ascii) :=
  let (sign, l1) :=
    match l with
    | c :: r => if Ascii.eqb c "-" then ([c], r) else ([], l)
    | [] => ([], l)
    end in
  match integer_part l1 with
  | None => None
  | Some (int, l2) =>
      match fraction_part l2 with
      | None => None
      | Some (frac, l3) =>
          match exponent_part l3 with
          | None => None
          | Some (ex, l4) => Some ((sign ++ int ++ frac ++ ex)%list, l4)
          end
      end
  end.

Definition unescape (c : ascii) : option ascii :=
  if Ascii.eqb c quote then Some quote
  else if Ascii.eqb c backslash then Some backslash
  else if Ascii.eqb c "/" then Some "/"
  else if Ascii.eqb c "b" then Some "008"
  else if Ascii.eqb c "f" then Some "012"
  else if Ascii.eqb c "n" then Some "010"
  else if Ascii.eqb c "r" then Some "013"
  else if Ascii.eqb c "t" then Some "009"
  else None.

Definition hex_value (c : ascii) : option N :=
  let n := N_of_ascii c in
  if ((48 <=? n) && (n <=? 57))%N then Some (n - 48)%N
  else if ((97 <=? n) && (n <=? 102))%N then Some (n - 87)%N
  else if ((65 <=? n) && (n <=? 70))%N then Some (n - 55)%N
  else None.

Definition hex4 (a b c d : ascii) : option N :=
  match hex_value a, hex_value b, hex_value c, hex_value d with
  | Some x, Some y, Some z, Some w => Some (((x * 16 + y) * 16 + z) * 16 + w)%N
  | _, _, _, _ => None
  end.

(** The UTF-8 bytes of a code point below 65536. *)
Definition utf8 (n : N) : list ascii :=
  if (n <? 128)%N then [ascii_of_N n]
  else if (n <? 2048)%N
  then [ascii_of_N (192 + n / 64); ascii_of_N (128 + n mod 64)]
  else [ascii_of_N (224 + n / 4096); ascii_of_N (128 + (n / 64) mod 64);
        ascii_of_N (128 + n mod 64)].

Definition prepend (xs : list ascii) (r : option (list ascii * list ascii))
  : option (list ascii * list ascii) :=
  match r with
  | Some (s, rest) => Some ((xs ++ s)%list, rest)
  | None => None
  end.

(** The characters of a string literal after its opening quote, up to the
    closing one. *)
Fixpoint string_body (l : list ascii) : option (list ascii * list ascii) :=
  match l with
  | [] => None
  | c :: r =>
      if Ascii.eqb c quote then Some ([], r)
      else if Ascii.eqb c backslash then
        match r with
        | [] => None
        | e :: r1 =>
            if Ascii.eqb e "u" then
              match r1 with
              | a :: b :: c' :: d :: r2 =>
                  match hex4 a b c' d with
                  | Some n => prepend (utf8 n) (string_body r2)
                  | None => None
                  end
              | _ => None
              end
            else
              match unescape e with
              | Some x => prepend [x] (string_body r1)
              | None => None
              end
        end
      else if is_control c then None
      else prepend [c] (string_body r)
  end.

Definition literal (word : string) (v : json) (l : list ascii)
  : option (json * list ascii) :=
  match strip (list_ascii_of_string word) l with
  | Some r => Some (v, r)
  | None => None
  end.

Fixpoint value (fuel : nat) (l : list ascii) : option (json * list ascii) :=
  match fuel with
  | O => None
  | S fuel =>
      match skip_ws l with
      | [] => None
      | c :: r =>
          if Ascii.eqb c "n" then literal "null" JNull (c :: r)
          else if Ascii.eqb c "t" then literal "true" (JBool true) (c :: r)
          else if Ascii.eqb c "f" then literal "false" (JBool false) (c :: r)
          else if Ascii.eqb c quote then
            match string_body r with
            | Some (s, r') => Some (JString (string_of_list_ascii s), r')
            | None => None
            end
          else if Ascii.eqb c "[" then
            match strip ["]"] (skip_ws r) with
            | Some r' => Some (JArray [], r')
            | None =>
                match elements fuel r with
                | Some (vs, r') => Some (JArray vs, r')
                | None => None
                end
            end
          else if Ascii.eqb c "{" then
            match strip ["}"] (skip_ws r) with
            | Some r' => Some (JObject [], r')
            | None =>
                match members fuel r with
                | Some (ms, r') => Some (JObject ms, r')
                | None => None
                end
            end
          else
            match number (c :: r) with
            | Some (n, r') => Some (JNumber (string_of_list_ascii n), r')
            | None => None
            end
      end
  end
with elements (fuel : nat) (l : list ascii) : option (list json * list ascii) :=
  match fuel with
  | O => None
  | S fuel =>
      match value fuel l with
      | None => None
      | Some (v, r) =>
          match skip_ws r with
          | [] => None
          | c :: r' =>
              if Ascii.eqb c "," then
                match elements fuel r' with
                | Some (vs, r'') => Some (v :: vs, r'')
                | None => None
                end
              else if Ascii.eqb c "]" then Some ([v], r')
              else None
          end
      end
  end
with members (fuel : nat) (l : list ascii)
  : option (list (string * json) * list ascii) :=
  match fuel with
  | O => None
  | S fuel =>
      match strip [quote] (skip_ws l) with
      | None => None
      | Some r =>
          match string_body r with
          | None => None
          | Some (key, r1) =>
              match strip [":"] (skip_ws r1) with
              | None => None
              | Some r2 =>
                  match value fuel r2 with
                  | None => None
                  | Some (v, r3) =>
                      match skip_ws r3 with
                      | [] => None
                      | c :: r4 =>
                          if Ascii.eqb c "," then
                            match members fuel r4 with
                            | Some (ms, r5) =>
                                Some ((string_of_list_ascii key, v) :: ms, r5)
                            | None => None
                            end
                          else if Ascii.eqb c "}"
                          then Some ([(string_of_list_ascii key, v)], r4)
                          else None
                      end
                  end
              end
          end
      end
  end.

(** The message of the [SyntaxError]; engines word it differently. *)
Definition syntax_error : string := "Unexpected token in JSON"%string.

Definition parse (text : string) : json + string :=
  let l := list_ascii_of_string text in
  match value (2 * List.length l + 2) l with
  | Some (v, r) =>
      match skip_ws r with
      | [] => inl v
      | _ :: _ => inr syntax_error
      end
  | None => inr syntax_error
  end.

(** A reference [JSON.stringify(v, null, 2)]. *)

Definition hex_digit (n : N) : ascii :=
  if (n <? 10)%N then ascii_of_N (48 + n) else ascii_of_N (87 + n).

Definition escape_char (c : ascii) : list ascii :=
  if Ascii.eqb c quote then [backslash; quote]
  else if Ascii.eqb c backslash then [backslash; backslash]
  else if Ascii.eqb c "008" then [backslash; "b"]
  else if Ascii.eqb c "012" then [backslash; "f"]
  else if Ascii.eqb c "010" then [backslash; "n"]
  else if Ascii.eqb c "013" then [backslash; "r"]
  else if Ascii.eqb c "009" then [backslash; "t"]
  else if is_control c
  then [backslash; "u"; "0"; "0"; hex_digit (N_of_ascii c / 16);
        hex_digit (N_of_ascii c mod 16)]
  else [c].

Definition quoted (s : string) : string :=
  string_of_list_ascii
    (quote :: flat_map escape_char (list_ascii_of_string s) ++ [quote])%list.

Definition line_feed : string := String "010" EmptyString.

Fixpoint join (sep : string) (parts : list string) : string :=
  match parts with
  | [] => EmptyString
  | [x] => x
  | x :: rest => (x ++ sep ++ join sep rest)%string
  end.

Fixpoint stringify_at (indent : string) (v : json) : string :=
  let inner := (indent ++ "  ")%string in
  let block (opening closing : string) (parts : list string) : string :=
    (opening ++ line_feed ++ inner
     ++ join ("," ++ line_feed ++ inner) parts
     ++ line_feed ++ indent ++ closing)%string in
  match v with
  | JNull => "null"%string
  | JBool true => "true"%string
  | JBool false => "false"%string
  | JNumber lexeme => lexeme
  | JString s => quoted s
  | JArray [] => "[]"%string
  | JArray elements =>
      block "["%string "]"%string (map (stringify_at inner) elements)
  | JObject [] => "{}"%string
  | JObject members =>
      block "{"%string "}"%string
        (map (fun m =>
                (quoted (fst m) ++ ": " ++ stringify_at inner (snd m))%string)
           members)
  end.

Definition stringify (v : json) : string := stringify_at EmptyString v.

End JSON.

(* ================================================================= *)
(** ** Backends and states used in the examples *)

Module Examples.

Definition org : string := "org-1".

(** The summary the example backend echoes for an uploaded payload. *)
Definition echo (k : kind) (v : json) : Created k :=
  match k with
  | Traces =>
      {| created_trace_id := "t"; created_span_count := 1;
         created_trace_tag_ids := []; created_trace_metadata := None |}
  | Metrics =>
      {| created_metric_id := "m"; created_metric_name := "example_counter";
         created_metric_type := "counter"; created_data_point_count := 1;
         created_metric_tag_ids := []; created_metric_metadata := None |}
  | Logs =>
      {| created_log_id := "l"; created_log_timestamp := "2022-01-01T00:00:00Z";
         created_log_severity := Some "INFO";
         created_log_body := "Example log message";
         created_log_tag_ids := []; created_log_metadata := None |}
  end.

(** A collection of 50 records whose pages are served empty. *)
Definition page (k : kind) (p : ListParams) : ListResponse k :=
  {| resp_items := []; resp_total := 50; resp_skip := effective_skip p;
     resp_limit := 20 |}.

(** Every call succeeds. *)
Definition healthy : backend :=
  {| answer := fun R q =>
       match q in api R return outcome R with
       | listTelemetryApi k p => inl (page k p)
       | uploadTelemetryApi k p =>
           inl {| uploaded := map (echo k) (upload_items p) |}
       end;
     settled_at := fun _ _ => 1%nat |}.

(** Every call is rejected with an [Error] carrying [message]. *)
Definition down (message : string) : backend :=
  {| answer := fun R _ => inr (JsError message);
     settled_at := fun _ _ => 1%nat |}.

(** Only the metrics list call is rejected. *)
Definition metrics_down : backend :=
  {| answer := fun R q =>
       match q in api R return outcome R with
       | listTelemetryApi Metrics p => inr (JsError "metrics unavailable")
       | listTelemetryApi k p => inl (page k p)
       | uploadTelemetryApi k p =>
           inl {| uploaded := map (echo k) (upload_items p) |}
       end;
     settled_at := fun _ _ => 1%nat |}.

(** A trace summary that records the [skip] of the page it was served on. *)
Definition trace_at (n : Z) : TelemetryTraceResponse :=
  {| trace_id := "trace"; span_count := n;
     trace_upload_date := "2022-01-01T00:00:00Z"; trace_uploaded_by := "u";
     trace_tag_ids := []; trace_metadata := None |}.

(** Every call succeeds, and a page of traces holds one trace that tells
    which page it is. *)
Definition paged : backend :=
  {| answer := fun R q =>
       match q in api R return outcome R with
       | listTelemetryApi k p =>
           match k return outcome (ListResponse k) with
           | Traces =>
               inl (Build_ListResponse Traces [trace_at (effective_skip p)]
                      50 (effective_skip p) 20)
           | k' => inl (page k' p)
           end
       | uploadTelemetryApi k p =>
           inl {| uploaded := map (echo k) (upload_items p) |}
       end;
     settled_at := fun _ _ => 1%nat |}.

(** A list controller on its second page of 50 records. *)
Definition second_page (k : kind) : TelemetryList.State k :=
  {| TelemetryList.items := []; TelemetryList.loading := false;
     TelemetryList.error := None; TelemetryList.total := 50;
     TelemetryList.skip := 20; TelemetryList.tagFilter := "";
     TelemetryList.nameSearch := "checkout" |}.

(** The first page of a collection of 50 records. *)
Definition first_page (k : kind) : TelemetryList.State k :=
  {| TelemetryList.items := []; TelemetryList.loading := false;
     TelemetryList.error := None; TelemetryList.total := 50;
     TelemetryList.skip := 0; TelemetryList.tagFilter := "";
     TelemetryList.nameSearch := "" |}.

Definition dq : string := String JSON.quote "".

(** [{"name":"x"}] *)
Definition one_metric : string :=
  "{" ++ dq ++ "name" ++ dq ++ ":" ++ dq ++ "x" ++ dq ++ "}".

(** [[{"name":"a"},{"name":"b"}]] *)
Definition two_metrics : string :=
  "[{" ++ dq ++ "name" ++ dq ++ ":" ++ dq ++ "a" ++ dq ++ "},{"
  ++ dq ++ "name" ++ dq ++ ":" ++ dq ++ "b" ++ dq ++ "}]".

Definition not_json : string := "{not json".

(** The upload form on the metrics tab with [text] in its buffer and a
    trace left over in the traces buffer. *)
Definition metrics_form (text : string) : TelemetryUpload.State :=
  {| TelemetryUpload.activeTab := Metrics;
     TelemetryUpload.loading := false;
     TelemetryUpload.error := Some "earlier failure";
     TelemetryUpload.success := Some "earlier success";
     TelemetryUpload.tracesData := "{}";
     TelemetryUpload.metricsData := text;
     TelemetryUpload.logsData := "" |}.

(** A collection of seven logs, all on one page. *)
Definition short_list (k : kind) : TelemetryList.State k :=
  {| TelemetryList.items := []; TelemetryList.loading := false;
     TelemetryList.error := None; TelemetryList.total := 7;
     TelemetryList.skip := 0; TelemetryList.tagFilter := "";
     TelemetryList.nameSearch := "" |}.

(** The second page again, with the message of a failed fetch on it. *)
Definition failed_page (k : kind) : TelemetryList.State k :=
  {| TelemetryList.items := []; TelemetryList.loading := false;
     TelemetryList.error := Some "boom"; TelemetryList.total := 50;
     TelemetryList.skip := 20; TelemetryList.tagFilter := "";
     TelemetryList.nameSearch := "checkout" |}.

(** What [new Date().toISOString()] could have given. *)
Definition new_year : string := "2024-01-01T00:00:00.000Z".

(** The upload form as it is first shown. *)
Definition empty_form : TelemetryUpload.State := TelemetryUpload.initial.

(** The overview after a load that failed. *)
Definition failed_overview : TelemetryOverview.State :=
  {| TelemetryOverview.tracesData := None;
     TelemetryOverview.metricsData := None;
     TelemetryOverview.logsData := None;
     TelemetryOverview.loading := false;
     TelemetryOverview.error := Some "metrics unavailable" |}.

End Examples.

(* ================================================================= *)
(** * Properties *)

(** ** Running handlers *)

Section ExecutionFacts.

Context {U St : Type}.
Variable apply : U -> St -> St.
Variable B : backend.

(** Running a handler is starting it and resuming it when its promise has
    settled. *)
Lemma run_start_resume {A : Type} (m : prog U A) (s : St) :
  run apply B m s = resume apply B (start apply m s).
Proof.
  revert s; induction m as [a | e | u k IH | R p k _]; intro s; simpl.
  - reflexivity.
  - reflexivity.
  - rewrite IH. destruct (start apply k (apply u s)) as [[s' tr] [r | R p c]];
      simpl; [reflexivity |].
    destruct (run apply B (c (fst (settle B p))) s') as [[s'' tr'] r].
    reflexivity.
  - destruct (run apply B (k (fst (settle B p))) s) as [[s' tr] r].
    reflexivity.
Qed.

Lemma requests_app (a b : list (event U)) :
  requests (a ++ b) = (requests a ++ requests b)%list.
Proof.
  induction a as [| [u | c] a IH]; simpl; [reflexivity | exact IH |].
  now rewrite IH.
Qed.

Lemma requests_sent_of (cs : list call) : requests (@sent_of U cs) = cs.
Proof.
  induction cs as [| c cs IH]; simpl; [reflexivity | now rewrite IH].
Qed.

End ExecutionFacts.

(** ** The list controllers *)

Section ListFacts.

Import TelemetryList.

Variable organizationId : string.
Variable k : kind.

Lemma same_deps_refl (s : State k) : same_deps s s = true.
Proof.
  unfold same_deps. now rewrite Z.eqb_refl, !String.eqb_refl.
Qed.

Lemma same_deps_skip (a b : State k) :
  skip a <> skip b -> same_deps a b = false.
Proof.
  intro H. unfold same_deps. apply Z.eqb_neq in H. now rewrite H.
Qed.

(** The synchronous part of a fetch raises [loading] and sends the query of
    the render that created the function. *)
Lemma start_fetch (c s : State k) :
  fst (start apply (fetch organizationId c) s)
  = (apply (setLoading true) s,
     [Did (setLoading true);
      Sent (Called (listTelemetryApi k (query organizationId c)))]).
Proof. reflexivity. Qed.

(** A handler that calls no setter and sends nothing leaves everything as
    it was: no render, no effect. *)
Lemma dispatch_idle (h : State k -> prog (update k) unit) (s : State k) :
  h s = Ret tt -> dispatch organizationId h s = (s, []).
Proof.
  intro H. unfold dispatch. rewrite H. simpl. unfold state_of. simpl.
  now rewrite same_deps_refl.
Qed.

(** A handler that only moves [skip] is followed by the effect's fetch. *)
Lemma dispatch_setSkip (h : State k -> prog (update k) unit) (s : State k)
  (n : Z) :
  h s = set (setSkip n) -> n <> skip s ->
  dispatch organizationId h s
  = (apply (setLoading true) (apply (setSkip n) s),
     [Did (setSkip n); Did (setLoading true);
      Sent (Called (listTelemetryApi k
              (query organizationId (apply (setSkip n) s))))]).
Proof.
  intros H Hn. unfold dispatch. rewrite H. simpl. unfold state_of. simpl.
  rewrite same_deps_skip by (simpl; congruence).
  reflexivity.
Qed.

(** The state a page button leaves: the same one when the button has
    nothing to do, otherwise the moved [skip] with the effect's fetch
    started. *)
Lemma press_cases (b : page_button) (s : State k) :
  (press organizationId b s = s
   /\ match b with
      | Next => skip s + limit <? total s
      | Previous => 0 <? skip s
      end = false)
  \/ (exists n : Z,
        press organizationId b s
        = apply (setLoading true) (apply (setSkip n) s)
        /\ match b with
           | Next => skip s + limit < total s /\ n = skip s + limit
           | Previous => 0 < skip s /\ n = Z.max 0 (skip s - limit)
           end).
Proof.
  unfold press. destruct b; simpl.
  - destruct (0 <? skip s) eqn:E.
    + right. exists (Z.max 0 (skip s - limit)). apply Z.ltb_lt in E.
      rewrite (dispatch_setSkip _ s (Z.max 0 (skip s - limit))).
      * split; [reflexivity | split; [exact E | reflexivity]].
      * unfold handlePreviousPage. apply Z.ltb_lt in E. now rewrite E.
      * unfold limit. lia.
    + left. rewrite dispatch_idle; [split; reflexivity |].
      unfold handlePreviousPage. now rewrite E.
  - destruct (skip s + limit <? total s) eqn:E.
    + right. exists (skip s + limit). apply Z.ltb_lt in E.
      rewrite (dispatch_setSkip _ s (skip s + limit)).
      * split; [reflexivity | split; [exact E | reflexivity]].
      * unfold handleNextPage. apply Z.ltb_lt in E. now rewrite E.
      * unfold limit. lia.
    + left. rewrite dispatch_idle; [split; reflexivity |].
      unfold handleNextPage. now rewrite E.
Qed.

Lemma press_skip (b : page_button) (s : State k) :
  skip (press organizationId b s)
  = match b with
    | Next => if skip s + limit <? total s then skip s + limit else skip s
    | Previous => if 0 <? skip s then Z.max 0 (skip s - limit) else skip s
    end.
Proof.
  destruct (press_cases b s) as [[-> H] | (n & -> & H)].
  - destruct b; now rewrite H.
  - destruct b; destruct H as [H ->]; apply Z.ltb_lt in H; now rewrite H.
Qed.

Lemma press_total (b : page_button) (s : State k) :
  total (press organizationId b s) = total s.
Proof.
  destruct (press_cases b s) as [[-> _] | (n & -> & _)]; reflexivity.
Qed.

Lemma press_on_a_page (t : Z) (b : page_button) (s : State k) :
  on_a_page t s -> on_a_page t (press organizationId b s).
Proof.
  intros (Ht & H0 & [q Hq] & Hlt).
  unfold on_a_page. rewrite press_total, press_skip.
  split; [exact Ht |].
  unfold limit in *.
  destruct b.
  - destruct (0 <? skip s) eqn:E.
    + apply Z.ltb_lt in E. repeat split.
      * lia.
      * exists (q - 1). lia.
      * intro. lia.
    + repeat split; [lia | now exists q | exact Hlt].
  - destruct (skip s + 20 <? total s) eqn:E.
    + apply Z.ltb_lt in E. repeat split.
      * lia.
      * exists (q + 1). lia.
      * intro. lia.
    + repeat split; [lia | now exists q | exact Hlt].
Qed.

Lemma paging_on_a_page (t : Z) (bs : list page_button) (s : State k) :
  on_a_page t s -> on_a_page t (paging organizationId bs s).
Proof.
  revert s. induction bs as [| b bs IH]; intros s H; simpl.
  - exact H.
  - apply IH. now apply press_on_a_page.
Qed.

(** A fetch run to completion: the two ways it can go. *)
Lemma run_fetch (B : backend) (c s : State k) :
  run apply B (fetch organizationId c) s
  = match answer B _ (listTelemetryApi k (query organizationId c)) with
    | inl response =>
        (apply (setLoading false)
           (apply (setTotal (resp_total response))
              (apply (setItems (resp_items response))
                 (apply (setLoading true) s))),
         [Did (setLoading true);
          Sent (Called (listTelemetryApi k (query organizationId c)));
          Did (setItems (resp_items response));
          Did (setTotal (resp_total response));
          Did (setLoading false)],
         inl tt)
    | inr err =>
        (apply (setLoading false)
           (apply (setError (Some (message_or (load_failure k) err)))
              (apply (setLoading true) s)),
         [Did (setLoading true);
          Sent (Called (listTelemetryApi k (query organizationId c)));
          Did (setError (Some (message_or (load_failure k) err)));
          Did (setLoading false)],
         inl tt)
    end.
Proof.
  unfold fetch. simpl.
  destruct (answer B (ListResponse k)
              (listTelemetryApi k (query organizationId c)));
    reflexivity.
Qed.

(** [handleSearch] away from the first page: the handler's own fetch is the
    function of the render it was created in and sends that render's
    [skip]; the render that follows sees [skip = 0] and its effect sends a
    second query. *)
Lemma dispatch_handleSearch (s : State k) :
  skip s <> 0 ->
  dispatch organizationId (handleSearch organizationId) s
  = (apply (setLoading true) (apply (setLoading true) (apply (setSkip 0) s)),
     [Did (setSkip 0); Did (setLoading true);
      Sent (Called (listTelemetryApi k (query organizationId s)));
      Did (setLoading true);
      Sent (Called (listTelemetryApi k
              (query organizationId
                 (apply (setLoading true) (apply (setSkip 0) s)))))]).
Proof.
  intro H. unfold dispatch, handleSearch. simpl. unfold state_of. simpl.
  rewrite same_deps_skip by (simpl; congruence).
  reflexivity.
Qed.

(** On the first page the dependencies do not change: one query, no
    effect. *)
Lemma dispatch_handleSearch_first_page (s : State k) :
  skip s = 0 ->
  dispatch organizationId (handleSearch organizationId) s
  = (apply (setLoading true) (apply (setSkip 0) s),
     [Did (setSkip 0); Did (setLoading true);
      Sent (Called (listTelemetryApi k (query organizationId s)))]).
Proof.
  intro H. unfold dispatch, handleSearch. simpl. unfold state_of. simpl.
  unfold same_deps. simpl. rewrite H. simpl. now rewrite !String.eqb_refl.
Qed.

(** C1 (as the code has it).  From a state with [skip > 0], pressing Search
    leaves [skip = 0] but sends two list requests: the first, made by the
    handler itself, still carries the old [skip]; only the second, made by
    the effect of the next render, carries [skip = 0]. *)
Theorem handleSearch_sends_stale_skip (s : State k) :
  0 < skip s ->
  let w := dispatch organizationId (handleSearch organizationId) s in
  skip (fst w) = 0
  /\ exists stale fresh : ListParams,
       requests (snd w)
       = [Called (listTelemetryApi k stale); Called (listTelemetryApi k fresh)]
       /\ param_skip stale = Some (skip s)
       /\ param_skip stale <> Some 0
       /\ param_skip fresh = Some 0
       /\ param_tagIds stale = param_tagIds fresh
       /\ param_search stale = param_search fresh.
Proof.
  intros H w. subst w. rewrite dispatch_handleSearch by lia. simpl.
  split; [reflexivity |].
  eexists. eexists. split; [reflexivity |]. simpl.
  repeat split. intro E. inversion E. lia.
Qed.

(** C2.  Whatever the page buttons are pressed from [skip = 0] on a
    collection of [total >= 0] records, [skip] stays a non-negative multiple
    of [limit = 20], and below [total] when [total > 0].  Next does nothing
    when [skip + limit >= total] and otherwise advances by [limit]; Previous
    does nothing when [skip = 0] and otherwise moves to
    [max 0 (skip - limit)], which is never negative. *)
Theorem pagination_bounds (bs : list page_button) (s0 : State k) :
  skip s0 = 0 -> 0 <= total s0 ->
  let s := paging organizationId bs s0 in
  limit = 20
  /\ 0 <= skip s
  /\ (limit | skip s)
  /\ (0 < total s0 -> skip s < total s0)
  /\ (skip s + limit >= total s ->
      dispatch organizationId handleNextPage s = (s, []))
  /\ (skip s + limit < total s ->
      skip (press organizationId Next s) = skip s + limit)
  /\ (skip s = 0 -> dispatch organizationId handlePreviousPage s = (s, []))
  /\ (skip s <> 0 ->
      skip (press organizationId Previous s) = Z.max 0 (skip s - limit))
  /\ 0 <= skip (press organizationId Previous s).
Proof.
  intros Hskip Htotal s.
  assert (H0 : on_a_page (total s0) s0).
  { unfold on_a_page. rewrite Hskip. repeat split; try lia.
    exists 0. reflexivity. }
  assert (H : on_a_page (total s0) s) by now apply paging_on_a_page.
  assert (Hp : on_a_page (total s0) (press organizationId Previous s))
    by now apply press_on_a_page.
  destruct H as (Ht & Hge & Hdiv & Hlt).
  split; [reflexivity |].
  split; [exact Hge |].
  split; [exact Hdiv |].
  split; [exact Hlt |].
  split.
  { intro H. apply dispatch_idle. unfold handleNextPage.
    destruct (skip s + limit <? total s) eqn:E; [| reflexivity].
    apply Z.ltb_lt in E. lia. }
  split.
  { intro H. rewrite press_skip. apply Z.ltb_lt in H. now rewrite H. }
  split.
  { intro H. apply dispatch_idle. unfold handlePreviousPage.
    rewrite H. reflexivity. }
  split.
  { intro H. rewrite press_skip.
    destruct (0 <? skip s) eqn:E; [reflexivity |].
    apply Z.ltb_ge in E. lia. }
  apply Hp.
Qed.

(** C3.  A fetch that fails leaves [items] and [total] as they were before
    the call and sets [error] to the failure message (the message of the
    [Error], or the fallback text for any other thrown value); [loading] is
    false once the fetch has completed, whether it succeeded or failed. *)
Theorem fetch_failure_keeps_items (B : backend) (c s : State k) :
  let s' := state_of (run apply B (fetch organizationId c) s) in
  loading s' = false
  /\ forall err : thrown,
       answer B _ (listTelemetryApi k (query organizationId c)) = inr err ->
       items s' = items s
       /\ total s' = total s
       /\ error s' = Some (message_or (load_failure k) err)
       /\ (forall message, err = JsError message -> error s' = Some message).
Proof.
  intro s'. subst s'. rewrite run_fetch.
  destruct (answer B (ListResponse k)
              (listTelemetryApi k (query organizationId c))) as [r | e].
  - split; [reflexivity |]. intros err H. discriminate H.
  - split; [reflexivity |]. intros err H. inversion H; subst err. simpl.
    repeat split. intros message ->. reflexivity.
Qed.

(** C9.  A fetch that succeeds replaces [items] and [total] and leaves
    [error] as it was; so the message set by a failed fetch is still there
    after a later fetch succeeds. *)
Theorem fetch_success_keeps_error (B : backend) (c s : State k)
  (response : ListResponse k) :
  answer B _ (listTelemetryApi k (query organizationId c)) = inl response ->
  let s' := state_of (run apply B (fetch organizationId c) s) in
  (error s' = error s
   /\ items s' = resp_items response
   /\ total s' = resp_total response)
  /\ forall (B0 : backend) (c0 s0 : State k) (err : thrown),
       answer B0 _ (listTelemetryApi k (query organizationId c0)) = inr err ->
       s = state_of (run apply B0 (fetch organizationId c0) s0) ->
       error s' = Some (message_or (load_failure k) err)
       /\ error s' <> None
       /\ items s' = resp_items response.
Proof.
  intros H s'. subst s'. rewrite run_fetch, H.
  split; [repeat split |].
  intros B0 c0 s0 err H0 ->. rewrite run_fetch, H0. simpl.
  repeat split. discriminate.
Qed.

End ListFacts.

(** ** The upload form *)

Section UploadFacts.

Import TelemetryUpload.

Variable JSON_parse : string -> json + string.
Variable organizationId : string.
Variable B : backend.

(** A submit run to completion: the three ways it can go.  [c] is the state
    the handler was created in, [s] the state it acts on. *)
Lemma run_handleUpload (c s : State) :
  run apply B (handleUpload JSON_parse organizationId c) s
  = let reset :=
      apply (setSuccess None)
        (apply (setError None) (apply (setLoading true) s)) in
    match JSON_parse (getCurrentData c) with
    | inr message =>
        (apply (setLoading false) (apply (setError (Some message)) reset),
         [Did (setLoading true); Did (setError None); Did (setSuccess None);
          Did (setError (Some message)); Did (setLoading false)],
         inl tt)
    | inl v =>
        let q :=
          uploadTelemetryApi (activeTab c) (upload_params organizationId v) in
        match answer B _ q with
        | inl result =>
            let text :=
              uploaded_message (activeTab c) (List.length (uploaded result)) in
            (apply (setLoading false)
               (apply (setBuffer (activeTab c) "")
                  (apply (setSuccess (Some text)) reset)),
             [Did (setLoading true); Did (setError None); Did (setSuccess None);
              Sent (Called q);
              Did (setSuccess (Some text));
              Did (setBuffer (activeTab c) "");
              Did (setLoading false)],
             inl tt)
        | inr err =>
            let text := message_or "Upload failed" err in
            (apply (setLoading false) (apply (setError (Some text)) reset),
             [Did (setLoading true); Did (setError None); Did (setSuccess None);
              Sent (Called q);
              Did (setError (Some text)); Did (setLoading false)],
             inl tt)
        end
    end.
Proof.
  destruct c as [tab l e su td md ld].
  destruct tab;
    unfold handleUpload, getCurrentData, parse, uploadTelemetryTracesApi,
      uploadTelemetryMetricsApi, uploadTelemetryLogsApi;
    simpl;
    match goal with
    | |- context [JSON_parse ?text] =>
        destruct (JSON_parse text) as [v | m]; simpl; [| reflexivity]
    end;
    match goal with
    | |- context [answer B ?R ?q] => destruct (answer B R q); reflexivity
    end.
Qed.

Lemma buffer_setBuffer_same (k : kind) (v : string) (s : State) :
  buffer k (apply (setBuffer k v) s) = v.
Proof. destruct k; reflexivity. Qed.

Lemma buffer_setBuffer_other (k k' : kind) (v : string) (s : State) :
  k' <> k -> buffer k' (apply (setBuffer k v) s) = buffer k' s.
Proof. destruct k, k'; intro H; try reflexivity; now elim H. Qed.

(** C4.  When the buffer parses to a value that is not an array, the submit
    sends one upload call whose batch is that value alone; when it parses to
    an array, the batch is the array's elements, unchanged and in order. *)
Theorem upload_batch_normalized (s : State) (v : json) :
  JSON_parse (getCurrentData s) = inl v ->
  let sent :=
    requests (trace_of (run apply B
                          (handleUpload JSON_parse organizationId s) s)) in
  (Array_isArray v = false ->
   sent = [Called (uploadTelemetryApi (activeTab s)
                     {| upload_organizationId := organizationId;
                        upload_items := [v] |})])
  /\ (forall elements : list json,
        v = JArray elements ->
        sent = [Called (uploadTelemetryApi (activeTab s)
                          {| upload_organizationId := organizationId;
                             upload_items := elements |})]).
Proof.
  intros H sent. subst sent. rewrite run_handleUpload, H. cbv zeta.
  destruct (answer B _ _); unfold trace_of, upload_params; simpl;
    (split;
     [ intro Hv; destruct v; try reflexivity; discriminate Hv
     | intros elements ->; reflexivity ]).
Qed.

(** C5.  When the buffer is not valid JSON, the parse error is what the
    submit shows as its error, no call reaches the API client, and the three
    buffers are left as they were. *)
Theorem upload_parse_failure_isolated (s : State) (message : string) :
  JSON_parse (getCurrentData s) = inr message ->
  let w := run apply B (handleUpload JSON_parse organizationId s) s in
  error (state_of w) = Some message
  /\ requests (trace_of w) = []
  /\ (forall k : kind, buffer k (state_of w) = buffer k s)
  /\ getCurrentData (state_of w) = getCurrentData s
  /\ success (state_of w) = None
  /\ loading (state_of w) = false.
Proof.
  intros H w. subst w. rewrite run_handleUpload, H. cbv zeta.
  unfold state_of, trace_of, getCurrentData. simpl.
  repeat split.
Qed.

(** C6.  When the upload call fails, every buffer keeps its value (the
    active one is not cleared), no success message is set, and the error
    shown is the message of the error raised by the API client. *)
Theorem upload_failure_keeps_buffer (s : State) (v : json) (err : thrown) :
  JSON_parse (getCurrentData s) = inl v ->
  answer B _ (uploadTelemetryApi (activeTab s) (upload_params organizationId v))
  = inr err ->
  let s' :=
    state_of (run apply B (handleUpload JSON_parse organizationId s) s) in
  getCurrentData s' = getCurrentData s
  /\ (forall k : kind, buffer k s' = buffer k s)
  /\ success s' = None
  /\ error s' = Some (message_or "Upload failed" err)
  /\ (forall message : string,
        err = JsError message -> error s' = Some message).
Proof.
  intros H Herr s'. subst s'. rewrite run_handleUpload, H. cbv zeta.
  rewrite Herr. unfold state_of, getCurrentData. simpl.
  split; [reflexivity |].
  split; [intro k; destruct k; reflexivity |].
  split; [reflexivity |].
  split; [reflexivity |].
  intros message ->. reflexivity.
Qed.

(** C7.  When the upload call succeeds and echoes [N] created summaries, the
    buffer of the active kind is emptied, the success message is
    ["Successfully uploaded N <kind>(s)"], and the buffers of the other two
    kinds are unchanged. *)
Theorem upload_success_clears_buffer (s : State) (v : json)
  (result : UploadResponse (activeTab s)) :
  JSON_parse (getCurrentData s) = inl v ->
  answer B _ (uploadTelemetryApi (activeTab s) (upload_params organizationId v))
  = inl result ->
  let s' :=
    state_of (run apply B (handleUpload JSON_parse organizationId s) s) in
  buffer (activeTab s) s' = ""
  /\ success s'
     = Some ("Successfully uploaded "
             ++ number_to_string (List.length (uploaded result))
             ++ " " ++ noun (activeTab s) ++ "(s)")
  /\ (forall k : kind, k <> activeTab s -> buffer k s' = buffer k s)
  /\ error s' = None.
Proof.
  intros H Hres s'. subst s'. rewrite run_handleUpload, H. cbv zeta.
  rewrite Hres. unfold state_of. cbn [fst].
  destruct s as [tab l e su td md ld]. cbn [activeTab] in *.
  destruct tab; simpl;
    (split; [reflexivity |]; split; [reflexivity |]; split; [| reflexivity]);
    intros k Hk; destruct k; try reflexivity; now elim Hk.
Qed.

(** C10.  A submit begins by raising [loading] and resetting [error] and
    [success] to null, before it parses the buffer or calls the API.  When
    it has completed exactly one of the two messages is non-null: [success]
    if and only if the parse and the upload call both succeeded, [error]
    otherwise. *)
Theorem upload_messages_exclusive (s : State) :
  let w := run apply B (handleUpload JSON_parse organizationId s) s in
  let s' := state_of w in
  (exists body : prog update unit,
     handleUpload JSON_parse organizationId s
     = Upd (setLoading true) (Upd (setError None) (Upd (setSuccess None) body)))
  /\ (exists rest : list (event update),
        trace_of w
        = Did (setLoading true) :: Did (setError None)
          :: Did (setSuccess None) :: rest
        /\ forall c : call, In c (requests (trace_of w)) -> In (Sent c) rest)
  /\ ((success s' <> None /\ error s' = None)
      \/ (success s' = None /\ error s' <> None))
  /\ (success s' <> None <->
      exists (v : json) (result : UploadResponse (activeTab s)),
        JSON_parse (getCurrentData s) = inl v
        /\ answer B _ (uploadTelemetryApi (activeTab s)
                         (upload_params organizationId v))
           = inl result).
Proof.
  intros w s'. subst s' w.
  split; [eexists; reflexivity |].
  rewrite run_handleUpload. cbv zeta.
  destruct (JSON_parse (getCurrentData s)) as [v | m].
  - destruct (answer B (UploadResponse (activeTab s))
                (uploadTelemetryApi (activeTab s)
                   (upload_params organizationId v))) as [result | err] eqn:E.
    + unfold state_of, trace_of. cbn [fst snd].
      assert (Hs : success
                (apply (setLoading false)
                   (apply (setBuffer (activeTab s) "")
                      (apply (setSuccess
                                (Some (uploaded_message (activeTab s)
                                         (List.length (uploaded result)))))
                         (apply (setSuccess None)
                            (apply (setError None)
                               (apply (setLoading true) s))))))
              = Some (uploaded_message (activeTab s)
                        (List.length (uploaded result)))).
      { destruct (activeTab s); reflexivity. }
      assert (He : error
                (apply (setLoading false)
                   (apply (setBuffer (activeTab s) "")
                      (apply (setSuccess
                                (Some (uploaded_message (activeTab s)
                                         (List.length (uploaded result)))))
                         (apply (setSuccess None)
                            (apply (setError None)
                               (apply (setLoading true) s))))))
              = None).
      { destruct (activeTab s); reflexivity. }
      rewrite Hs, He.
      split.
      { eexists. split; [reflexivity |]. simpl.
        intros c [<- | []]. left. reflexivity. }
      split; [left; split; [discriminate | reflexivity] |].
      split; [intros _; exists v, result; split; [reflexivity | exact E]
             | discriminate].
    + unfold state_of, trace_of. simpl.
      split.
      { eexists. split; [reflexivity |].
        intros c [<- | []]. left. reflexivity. }
      split; [right; split; [reflexivity | discriminate] |].
      split; [intro H; now elim H |].
      intros (v' & result & Hv & Hr). inversion Hv; subst v'.
      rewrite E in Hr. discriminate Hr.
  - unfold state_of, trace_of. simpl.
    split.
    { eexists. split; [reflexivity |]. intros c []. }
    split; [right; split; [reflexivity | discriminate] |].
    split; [intro H; now elim H |].
    intros (v' & result & Hv & Hr). discriminate Hv.
Qed.

End UploadFacts.

(** ** The overview aggregator *)

Section PromiseAllFacts.

Context {A B C : Type}.

(** [Promise.all] is fulfilled exactly when its three promises are. *)
Lemma all_settle_fulfilled (x : A) (y : B) (z : C) (ta tb tc : nat) :
  fst (all_settle (inl x, ta) (inl y, tb) (inl z, tc)) = inl (x, y, z).
Proof. reflexivity. Qed.

(** Otherwise it is rejected with the reason of one of them. *)
Lemma all_settle_rejected (a : outcome A) (b : outcome B) (c : outcome C)
  (ta tb tc : nat) :
  (exists e, a = inr e) \/ (exists e, b = inr e) \/ (exists e, c = inr e) ->
  exists e : thrown,
    fst (all_settle (a, ta) (b, tb) (c, tc)) = inr e
    /\ (a = inr e \/ b = inr e \/ c = inr e).
Proof.
  destruct a as [x | ea], b as [y | eb], c as [z | ec];
    intro H;
    try (destruct H as [[e H] | [[e H] | [e H]]]; discriminate H);
    unfold all_settle, earlier, rejection;
    repeat match goal with
      | |- context [Nat.leb ?n ?m] => destruct (Nat.leb n m)
      end;
    simpl; eexists; (split; [reflexivity |]); auto.
Qed.

End PromiseAllFacts.

Section OverviewFacts.

Import TelemetryOverview.

Variable organizationId : string.
Variable B : backend.

Lemma run_fetchOverviewData (s : State) :
  run apply B (fetchOverviewData organizationId) s
  = let q := overview_query organizationId in
    let calls :=
      [Sent (Called (listTelemetryTracesApi q));
       Sent (Called (listTelemetryMetricsApi q));
       Sent (Called (listTelemetryLogsApi q))] in
    match overview_settled organizationId B with
    | inl (traces, metrics, logs) =>
        (apply (setLoading false)
           (apply (setLogsData (Some logs))
              (apply (setMetricsData (Some metrics))
                 (apply (setTracesData (Some traces))
                    (apply (setLoading true) s)))),
         (Did (setLoading true) :: calls
          ++ [Did (setTracesData (Some traces));
              Did (setMetricsData (Some metrics));
              Did (setLogsData (Some logs));
              Did (setLoading false)])%list,
         inl tt)
    | inr err =>
        let text := message_or "Failed to load telemetry data" err in
        (apply (setLoading false)
           (apply (setError (Some text)) (apply (setLoading true) s)),
         (Did (setLoading true) :: calls
          ++ [Did (setError (Some text)); Did (setLoading false)])%list,
         inl tt)
    end.
Proof.
  unfold fetchOverviewData, overview_settled, listTelemetryTracesApi,
    listTelemetryMetricsApi, listTelemetryLogsApi.
  cbn -[all_settle].
  match goal with
  | |- context [fst (all_settle ?a ?b ?c)] =>
      destruct (fst (all_settle a b c)) as [[[t m] l] | err]
  end; reflexivity.
Qed.

(** C8.  The aggregator makes exactly three list calls, for traces, metrics
    and logs, each with [limit = 5], no [skip] (so 0 by the API client's
    default) and no filter.  When all three succeed their responses (items
    and totals) are all stored.  When any of them fails, one error is
    reported, taken from a call that failed, and none of the three data
    cells is set: after the first load they are all still empty and the
    component shows no summary data. *)
Theorem overview_all_or_nothing (s : State) :
  let w := run apply B (fetchOverviewData organizationId) s in
  let s' := state_of w in
  let q := overview_query organizationId in
  (requests (trace_of w)
   = [Called (listTelemetryTracesApi q); Called (listTelemetryMetricsApi q);
      Called (listTelemetryLogsApi q)]
   /\ param_limit q = Some 5
   /\ param_skip q = None /\ effective_skip q = 0
   /\ param_tagIds q = None /\ param_search q = None)
  /\ (forall traces metrics logs,
        answer B _ (listTelemetryTracesApi q) = inl traces ->
        answer B _ (listTelemetryMetricsApi q) = inl metrics ->
        answer B _ (listTelemetryLogsApi q) = inl logs ->
        tracesData s' = Some traces
        /\ metricsData s' = Some metrics
        /\ logsData s' = Some logs
        /\ loading s' = false)
  /\ ((exists e, answer B _ (listTelemetryTracesApi q) = inr e)
      \/ (exists e, answer B _ (listTelemetryMetricsApi q) = inr e)
      \/ (exists e, answer B _ (listTelemetryLogsApi q) = inr e) ->
      (exists e : thrown,
         (answer B _ (listTelemetryTracesApi q) = inr e
          \/ answer B _ (listTelemetryMetricsApi q) = inr e
          \/ answer B _ (listTelemetryLogsApi q) = inr e)
         /\ updates (trace_of w)
            = [setLoading true;
               setError (Some (message_or "Failed to load telemetry data" e));
               setLoading false]
         /\ error s' = Some (message_or "Failed to load telemetry data" e))
      /\ tracesData s' = tracesData s
      /\ metricsData s' = metricsData s
      /\ logsData s' = logsData s
      /\ loading s' = false
      /\ (s = initial ->
          tracesData s' = None /\ metricsData s' = None /\ logsData s' = None
          /\ forall traces metrics logs,
               render s' = Dashboard traces metrics logs ->
               traces = None /\ metrics = None /\ logs = None)).
Proof.
  intros w s' q. subst s' w. rewrite run_fetchOverviewData. cbv zeta.
  fold q.
  split.
  { destruct (overview_settled organizationId B) as [[[t m] l] | err];
      unfold trace_of; simpl; repeat split. }
  split.
  - intros traces metrics logs Ht Hm Hl.
    unfold overview_settled. cbn [settle]. fold q.
    rewrite Ht, Hm, Hl.
    rewrite (all_settle_fulfilled traces metrics logs).
    unfold state_of. simpl. repeat split.
  - intro H.
    destruct (all_settle_rejected
                (answer B _ (listTelemetryTracesApi q))
                (answer B _ (listTelemetryMetricsApi q))
                (answer B _ (listTelemetryLogsApi q))
                (settled_at B _ (listTelemetryTracesApi q))
                (settled_at B _ (listTelemetryMetricsApi q))
                (settled_at B _ (listTelemetryLogsApi q)) H)
      as (e & He & Hwho).
    unfold overview_settled. cbn [settle]. fold q. rewrite He.
    unfold state_of, trace_of. simpl in Hwho |- *.
    split; [exists e; split; [exact Hwho | split; reflexivity] |].
    split; [reflexivity |].
    split; [reflexivity |].
    split; [reflexivity |].
    split; [reflexivity |].
    intros ->. simpl.
    split; [reflexivity |].
    split; [reflexivity |].
    split; [reflexivity |].
    intros traces metrics logs.
    unfold render. simpl.
    destruct (String.eqb (message_or "Failed to load telemetry data" e) "");
      [| discriminate].
    intro E. inversion E. repeat split.
Qed.

End OverviewFacts.

(** ** Worked examples *)

Section WorkedExamples.

Import Examples.

(** Search pressed on the second page of 50 traces: the request of the
    handler still asks for [skip = 20]. *)
Lemma handleSearch_sends_stale_skip_witness :
  0 < TelemetryList.skip (second_page Traces)
  /\ let w := TelemetryList.dispatch org (TelemetryList.handleSearch org)
                (second_page Traces) in
     TelemetryList.skip (fst w) = 0
     /\ map (fun c => match c with
                      | @Called _ (listTelemetryApi _ p) => param_skip p
                      | @Called _ (uploadTelemetryApi _ _) => None
                      end) (requests (snd w))
        = [Some 20; Some 0].
Proof.
  split; [reflexivity |].
  destruct (handleSearch_sends_stale_skip org Traces (second_page Traces)
              eq_refl) as (H & stale & fresh & Hreq & _).
  split; [exact H | reflexivity].
Defined.

(** The two requests of that Search are both in flight.  When the answer
    to the second one arrives first and the answer to the handler's own one
    last, the list shows the page served for [skip = 20] under [skip = 0]. *)
Example handleSearch_stale_response_last :
  let s := second_page Traces in
  let w1 := start TelemetryList.apply (TelemetryList.handleSearch org s) s in
  let s1 := state_of w1 in
  let w2 := start TelemetryList.apply (TelemetryList.fetch org s1) s1 in
  let s3 := state_of (resume TelemetryList.apply paged
                        (state_of w2, [], result_of w2)) in
  let s4 := state_of (resume TelemetryList.apply paged
                        (s3, [], result_of w1)) in
  TelemetryList.items s3 = [trace_at 0]
  /\ TelemetryList.items s4 = [trace_at 20]
  /\ TelemetryList.skip s4 = 0.
Proof. repeat split. Qed.

(** Next, Next, Next, Previous on 50 records: 0, 20, 40, 40, 20. *)
Lemma pagination_bounds_witness :
  TelemetryList.skip (first_page Logs) = 0
  /\ 0 <= TelemetryList.total (first_page Logs)
  /\ let s := TelemetryList.paging org
                [TelemetryList.Next; TelemetryList.Next; TelemetryList.Next;
                 TelemetryList.Previous] (first_page Logs) in
     TelemetryList.skip s = 20
     /\ 0 <= TelemetryList.skip s
     /\ (TelemetryList.limit | TelemetryList.skip s)
     /\ TelemetryList.skip s < 50.
Proof.
  split; [reflexivity |].
  split; [discriminate |].
  destruct (pagination_bounds org Logs
              [TelemetryList.Next; TelemetryList.Next; TelemetryList.Next;
               TelemetryList.Previous] (first_page Logs) eq_refl)
    as (_ & Hge & Hdiv & Hlt & _).
  - discriminate.
  - split; [reflexivity |].
    split; [exact Hge |].
    split; [exact Hdiv |].
    apply Hlt. reflexivity.
Defined.

(** A failed fetch on the second page. *)
Lemma fetch_failure_keeps_items_witness :
  answer (down "boom") _
    (listTelemetryApi Metrics (TelemetryList.query org (second_page Metrics)))
  = inr (JsError "boom")
  /\ let s' := state_of (run TelemetryList.apply (down "boom")
                           (TelemetryList.fetch org (second_page Metrics))
                           (second_page Metrics)) in
     TelemetryList.loading s' = false
     /\ TelemetryList.items s' = []
     /\ TelemetryList.total s' = 50
     /\ TelemetryList.error s' = Some "boom".
Proof.
  split; [reflexivity |].
  destruct (fetch_failure_keeps_items org Metrics (down "boom")
              (second_page Metrics) (second_page Metrics)) as (Hl & H).
  destruct (H (JsError "boom") eq_refl) as (Hi & Ht & _ & He).
  split; [exact Hl |].
  split; [exact Hi |].
  split; [exact Ht |].
  exact (He "boom" eq_refl).
Defined.

(** A fetch that succeeds after one that failed: fresh total, old error. *)
Lemma fetch_success_keeps_error_witness :
  let s1 := state_of (run TelemetryList.apply (down "boom")
                        (TelemetryList.fetch org (first_page Traces))
                        (first_page Traces)) in
  answer healthy _ (listTelemetryApi Traces (TelemetryList.query org s1))
  = inl (page Traces (TelemetryList.query org s1))
  /\ let s2 := state_of (run TelemetryList.apply healthy
                           (TelemetryList.fetch org s1) s1) in
     TelemetryList.error s2 = Some "boom"
     /\ TelemetryList.total s2 = 50.
Proof.
  intro s1.
  split; [reflexivity |].
  destruct (fetch_success_keeps_error org Traces healthy s1 s1
              (page Traces (TelemetryList.query org s1)) eq_refl)
    as ((He & _ & Ht) & _).
  split; [exact He | exact Ht].
Defined.

(** One object is a batch of one; an array of two is sent as it is. *)
Lemma upload_batch_normalized_witness :
  JSON.parse (TelemetryUpload.getCurrentData (metrics_form one_metric))
  = inl (JObject [("name", JString "x")])
  /\ JSON.parse (TelemetryUpload.getCurrentData (metrics_form two_metrics))
     = inl (JArray [JObject [("name", JString "a")];
                    JObject [("name", JString "b")]])
  /\ requests (trace_of (run TelemetryUpload.apply healthy
                 (TelemetryUpload.handleUpload JSON.parse org
                    (metrics_form one_metric))
                 (metrics_form one_metric)))
     = [Called (uploadTelemetryApi Metrics
                  {| upload_organizationId := org;
                     upload_items := [JObject [("name", JString "x")]] |})]
  /\ requests (trace_of (run TelemetryUpload.apply healthy
                 (TelemetryUpload.handleUpload JSON.parse org
                    (metrics_form two_metrics))
                 (metrics_form two_metrics)))
     = [Called (uploadTelemetryApi Metrics
                  {| upload_organizationId := org;
                     upload_items := [JObject [("name", JString "a")];
                                      JObject [("name", JString "b")]] |})].
Proof.
  split; [reflexivity |].
  split; [reflexivity |].
  split.
  - destruct (upload_batch_normalized JSON.parse org healthy
                (metrics_form one_metric) (JObject [("name", JString "x")])
                eq_refl) as [Hone _].
    apply Hone. reflexivity.
  - destruct (upload_batch_normalized JSON.parse org healthy
                (metrics_form two_metrics)
                (JArray [JObject [("name", JString "a")];
                         JObject [("name", JString "b")]])
                eq_refl) as [_ Hmany].
    apply Hmany. reflexivity.
Defined.

(** The malformed buffer of the specification. *)
Lemma upload_parse_failure_isolated_witness :
  JSON.parse (TelemetryUpload.getCurrentData (metrics_form not_json))
  = inr JSON.syntax_error
  /\ let w := run TelemetryUpload.apply healthy
                (TelemetryUpload.handleUpload JSON.parse org
                   (metrics_form not_json))
                (metrics_form not_json) in
     TelemetryUpload.error (state_of w) = Some JSON.syntax_error
     /\ requests (trace_of w) = []
     /\ TelemetryUpload.metricsData (state_of w) = not_json.
Proof.
  split; [reflexivity |].
  destruct (upload_parse_failure_isolated JSON.parse org healthy
              (metrics_form not_json) JSON.syntax_error eq_refl)
    as (He & Hr & Hb & _).
  split; [exact He |].
  split; [exact Hr |].
  exact (Hb Metrics).
Defined.

(** A well-formed metric refused by the backend. *)
Lemma upload_failure_keeps_buffer_witness :
  JSON.parse (TelemetryUpload.getCurrentData (metrics_form one_metric))
  = inl (JObject [("name", JString "x")])
  /\ answer (down "422 invalid metric") _
       (uploadTelemetryApi Metrics
          (TelemetryUpload.upload_params org (JObject [("name", JString "x")])))
     = inr (JsError "422 invalid metric")
  /\ let s' := state_of (run TelemetryUpload.apply (down "422 invalid metric")
                           (TelemetryUpload.handleUpload JSON.parse org
                              (metrics_form one_metric))
                           (metrics_form one_metric)) in
     TelemetryUpload.metricsData s' = one_metric
     /\ TelemetryUpload.success s' = None
     /\ TelemetryUpload.error s' = Some "422 invalid metric".
Proof.
  split; [reflexivity |].
  split; [reflexivity |].
  destruct (upload_failure_keeps_buffer JSON.parse org
              (down "422 invalid metric") (metrics_form one_metric)
              (JObject [("name", JString "x")]) (JsError "422 invalid metric")
              eq_refl eq_refl)
    as (_ & Hb & Hs & _ & He).
  split; [exact (Hb Metrics) |].
  split; [exact Hs |].
  exact (He "422 invalid metric" eq_refl).
Defined.

(** Two metrics accepted: the metrics buffer is emptied, the traces buffer
    is not. *)
Lemma upload_success_clears_buffer_witness :
  JSON.parse (TelemetryUpload.getCurrentData (metrics_form two_metrics))
  = inl (JArray [JObject [("name", JString "a")];
                 JObject [("name", JString "b")]])
  /\ let s' := state_of (run TelemetryUpload.apply healthy
                           (TelemetryUpload.handleUpload JSON.parse org
                              (metrics_form two_metrics))
                           (metrics_form two_metrics)) in
     TelemetryUpload.metricsData s' = ""
     /\ TelemetryUpload.success s' = Some "Successfully uploaded 2 metric(s)"
     /\ TelemetryUpload.tracesData s' = "{}".
Proof.
  split; [reflexivity |].
  destruct (upload_success_clears_buffer JSON.parse org healthy
              (metrics_form two_metrics)
              (JArray [JObject [("name", JString "a")];
                       JObject [("name", JString "b")]])
              {| uploaded :=
                   map (echo Metrics)
                     [JObject [("name", JString "a")];
                      JObject [("name", JString "b")]] |}
              eq_refl eq_refl)
    as (Hb & Hs & Ho & _).
  split; [exact Hb |].
  split; [exact Hs |].
  apply (Ho Traces). discriminate.
Defined.

(** The metrics query fails while traces and logs succeed. *)
Lemma overview_all_or_nothing_witness :
  let s' := state_of (run TelemetryOverview.apply metrics_down
                        (TelemetryOverview.fetchOverviewData org)
                        TelemetryOverview.initial) in
  TelemetryOverview.tracesData s' = None
  /\ TelemetryOverview.metricsData s' = None
  /\ TelemetryOverview.logsData s' = None
  /\ TelemetryOverview.render s'
     = TelemetryOverview.ErrorPanel "metrics unavailable".
Proof.
  destruct (overview_all_or_nothing org metrics_down TelemetryOverview.initial)
    as (_ & _ & H).
  destruct H as (_ & _ & _ & _ & _ & H).
  - right. left. exists (JsError "metrics unavailable"). reflexivity.
  - destruct (H eq_refl) as (Ht & Hm & Hl & _).
    split; [exact Ht |].
    split; [exact Hm |].
    split; [exact Hl |].
    reflexivity.
Defined.

(** A submit on a form that still shows both messages of earlier submits. *)
Lemma upload_messages_exclusive_witness :
  let s' := state_of (run TelemetryUpload.apply healthy
                        (TelemetryUpload.handleUpload JSON.parse org
                           (metrics_form not_json))
                        (metrics_form not_json)) in
  TelemetryUpload.success s' = None /\ TelemetryUpload.error s' <> None.
Proof.
  destruct (upload_messages_exclusive JSON.parse org healthy
              (metrics_form not_json)) as (_ & _ & [[H _] | H] & _).
  - exfalso. apply H. reflexivity.
  - exact H.
Defined.

End WorkedExamples.

(* ================================================================= *)
(** * Further properties *)

(** ** The list controllers: filters, page buttons, pagination block *)

Section ListPaging.

Import TelemetryList.

Variable organizationId : string.
Variable k : kind.

Lemma same_deps_nameSearch (a b : State k) :
  nameSearch a <> nameSearch b -> same_deps a b = false.
Proof.
  intro H. unfold same_deps. apply String.eqb_neq in H. rewrite H.
  apply andb_false_r.
Qed.

Lemma same_deps_tagFilter (a b : State k) :
  tagFilter a <> tagFilter b -> same_deps a b = false.
Proof.
  intro H. unfold same_deps. apply String.eqb_neq in H. rewrite H.
  now rewrite andb_false_r.
Qed.

(** Typing in a filter input refetches at once, on the page the list is
    on: a new value of either input sends exactly one list request, with the
    new filter and the unchanged [skip]; the value the input already has
    sends nothing.  [skip] is not reset. *)
Theorem filter_input_refetches_at_current_skip (s : State k) (v : string) :
  let by_name := dispatch organizationId (changeNameSearch v) s in
  let by_tags := dispatch organizationId (changeTagFilter v) s in
  skip (fst by_name) = skip s
  /\ skip (fst by_tags) = skip s
  /\ (v <> nameSearch s ->
      requests (snd by_name)
      = [Called (listTelemetryApi k
                   {| param_organizationId := organizationId;
                      param_skip := Some (skip s);
                      param_limit := Some limit;
                      param_tagIds := or_undefined (tagFilter s);
                      param_search := or_undefined v |})])
  /\ (v = nameSearch s -> requests (snd by_name) = [])
  /\ (v <> tagFilter s ->
      requests (snd by_tags)
      = [Called (listTelemetryApi k
                   {| param_organizationId := organizationId;
                      param_skip := Some (skip s);
                      param_limit := Some limit;
                      param_tagIds := or_undefined v;
                      param_search := or_undefined (nameSearch s) |})])
  /\ (v = tagFilter s -> requests (snd by_tags) = []).
Proof.
  intros by_name by_tags. subst by_name by_tags.
  unfold dispatch, changeNameSearch, changeTagFilter. simpl.
  unfold state_of, trace_of. simpl.
  split.
  { match goal with
    | |- context [same_deps ?a ?b] => destruct (same_deps a b)
    end; reflexivity. }
  split.
  { match goal with
    | |- context [same_deps ?a ?b] => destruct (same_deps a b)
    end; reflexivity. }
  split.
  { intro H. rewrite same_deps_nameSearch by (simpl; congruence).
    reflexivity. }
  split.
  { intros ->.
    match goal with
    | |- context [same_deps ?a ?b] => replace (same_deps a b) with true
    end; [reflexivity |].
    unfold same_deps. simpl. now rewrite Z.eqb_refl, !String.eqb_refl. }
  split.
  { intro H. rewrite same_deps_tagFilter by (simpl; congruence).
    reflexivity. }
  intros ->.
  match goal with
  | |- context [same_deps ?a ?b] => replace (same_deps a b) with true
  end; [reflexivity |].
  unfold same_deps. simpl. now rewrite Z.eqb_refl, !String.eqb_refl.
Qed.

(** The states the page buttons lead to from the first page. *)
Lemma paging_reaches_a_page (bs : list page_button) (s0 : State k) :
  skip s0 = 0 -> 0 <= total s0 ->
  on_a_page (total s0) (paging organizationId bs s0).
Proof.
  intros Hs Ht. apply paging_on_a_page.
  unfold on_a_page. rewrite Hs. repeat split; try lia. exists 0. reflexivity.
Qed.

(** The [disabled] attributes of the page buttons agree with the handlers.
    On any state the page buttons lead to, a disabled button does nothing
    when its handler runs; an enabled one moves [skip] by exactly one page
    and sends exactly one list request, which carries the new [skip]. *)
Theorem page_buttons_agree_with_handlers (bs : list page_button)
  (s0 : State k) (p : Pagination) :
  skip s0 = 0 -> 0 <= total s0 ->
  let s := paging organizationId bs s0 in
  pagination s = Some p ->
  (previous_disabled p = true ->
   dispatch organizationId handlePreviousPage s = (s, []))
  /\ (next_disabled p = true ->
      dispatch organizationId handleNextPage s = (s, []))
  /\ (previous_disabled p = false ->
      let d := dispatch organizationId handlePreviousPage s in
      skip (fst d) = skip s - limit
      /\ exists q : ListParams,
           requests (snd d) = [Called (listTelemetryApi k q)]
           /\ param_skip q = Some (skip s - limit))
  /\ (next_disabled p = false ->
      let d := dispatch organizationId handleNextPage s in
      skip (fst d) = skip s + limit
      /\ exists q : ListParams,
           requests (snd d) = [Called (listTelemetryApi k q)]
           /\ param_skip q = Some (skip s + limit)).
Proof.
  intros Hs Ht s Hp.
  destruct (paging_reaches_a_page bs s0 Hs Ht) as (Htot & Hge & [q Hq] & Hlt).
  fold s in Htot, Hge, Hq, Hlt.
  unfold pagination in Hp.
  destruct (limit <? total s) eqn:Eshown; [| discriminate Hp].
  inversion Hp; subst p; clear Hp. simpl.
  unfold limit in *.
  split.
  { intro H. apply Z.eqb_eq in H. apply dispatch_idle.
    unfold handlePreviousPage. now rewrite H. }
  split.
  { intro H. rewrite Z.geb_leb in H. apply Z.leb_le in H.
    apply dispatch_idle. unfold handleNextPage, limit.
    destruct (skip s + 20 <? total s) eqn:E; [| reflexivity].
    apply Z.ltb_lt in E. lia. }
  split.
  { intro H. apply Z.eqb_neq in H.
    assert (Hpos : 0 < skip s) by lia.
    rewrite (dispatch_setSkip organizationId k _ s (skip s - 20)).
    - simpl. split; [reflexivity |]. eexists. split; reflexivity.
    - unfold handlePreviousPage. apply Z.ltb_lt in Hpos. rewrite Hpos.
      unfold limit. replace (Z.max 0 (skip s - 20)) with (skip s - 20) by lia.
      reflexivity.
    - lia. }
  intro H.
  assert (Hlt' : skip s + 20 < total s).
  { rewrite Z.geb_leb in H. now apply Z.leb_gt in H. }
  rewrite (dispatch_setSkip organizationId k _ s (skip s + 20)).
  - simpl. split; [reflexivity |]. eexists. split; reflexivity.
  - unfold handleNextPage. apply Z.ltb_lt in Hlt'. unfold limit.
    now rewrite Hlt'.
  - lia.
Qed.

(** Off the first page there are records at and after [skip]. *)
Lemma paging_skip_below_total (bs : list page_button) (s0 : State k) :
  skip s0 = 0 ->
  skip (paging organizationId bs s0) = 0
  \/ skip (paging organizationId bs s0) < total s0.
Proof.
  intro Hs.
  assert (H : skip s0 = 0 \/ skip s0 < total s0) by now left.
  clear Hs. revert H.
  generalize (eq_refl (total s0)).
  generalize (total s0) at 1 3 4 as t.
  intros t Ht. revert s0 Ht.
  induction bs as [| b bs IH]; intros s0 Ht H; [exact H |].
  change (paging organizationId (b :: bs) s0)
    with (paging organizationId bs (press organizationId b s0)).
  apply IH.
  - now rewrite press_total.
  - rewrite press_skip. unfold limit.
    destruct b.
    + destruct (0 <? skip s0); lia.
    + destruct (skip s0 + 20 <? total s0) eqn:E; [| exact H].
      apply Z.ltb_lt in E. lia.
Qed.

(** Next and Previous undo each other.  On any state the page buttons lead
    to, Next followed by Previous comes back to the same [skip] whenever
    Next could move, and Previous followed by Next comes back whenever
    Previous could move. *)
Theorem next_and_previous_undo_each_other (bs : list page_button)
  (s0 : State k) :
  skip s0 = 0 -> 0 <= total s0 ->
  let s := paging organizationId bs s0 in
  (skip s + limit < total s ->
   skip (press organizationId Previous (press organizationId Next s)) = skip s)
  /\ (0 < skip s ->
      skip (press organizationId Next (press organizationId Previous s))
      = skip s).
Proof.
  intros Hs Ht s.
  destruct (paging_reaches_a_page bs s0 Hs Ht) as (Htot & Hge & [q Hq] & Hlt).
  fold s in Htot, Hge, Hq, Hlt.
  rewrite !press_skip, !press_total. unfold limit in *.
  pose proof (paging_skip_below_total bs s0 Hs) as Hbelow.
  fold s in Hbelow. clearbody s.
  split; intro H.
  - replace (skip s + 20 <? total s) with true
      by (symmetry; apply Z.ltb_lt; exact H).
    replace (0 <? skip s + 20) with true by (symmetry; apply Z.ltb_lt; lia).
    lia.
  - assert (Hlt' : skip s < total s0) by lia.
    replace (0 <? skip s) with true by (symmetry; apply Z.ltb_lt; exact H).
    replace (Z.max 0 (skip s - 20)) with (skip s - 20) by lia.
    replace (skip s - 20 + 20 <? total s) with true
      by (symmetry; apply Z.ltb_lt; lia).
    lia.
Qed.

(** Pressing Next [n] times from a page: [skip] advances by [limit] per
    press until the last page, whose [skip] is [limit * ((total - 1) /
    limit)], and stays there. *)
Lemma next_presses_from (t : Z) (n : nat) (s : State k) :
  0 < t -> on_a_page t s ->
  skip (paging organizationId (repeat Next n) s)
  = Z.min (skip s + limit * Z.of_nat n) (limit * ((t - 1) / limit)).
Proof.
  intro Hpos. revert s. unfold limit.
  induction n as [| n IH]; intros s Hs.
  - destruct Hs as (Htot & Hge & [q Hq] & Hlt).
    unfold paging. cbn [repeat fold_left].
    change (Z.of_nat 0) with 0. rewrite Z.mul_0_r, Z.add_0_r.
    specialize (Hlt Hpos). unfold limit in Hq.
    assert (q <= (t - 1) / 20) by (apply Z.div_le_lower_bound; lia).
    lia.
  - change (paging organizationId (repeat Next (S n)) s)
      with (paging organizationId (repeat Next n)
              (press organizationId Next s)).
    rewrite (IH _ (press_on_a_page organizationId k t Next s Hs)).
    rewrite press_skip. unfold limit.
    destruct Hs as (Htot & Hge & [q Hq] & Hlt).
    specialize (Hlt Hpos). unfold limit in Hq.
    assert (Hq' : q <= (t - 1) / 20) by (apply Z.div_le_lower_bound; lia).
    destruct (skip s + 20 <? total s) eqn:E.
    + lia.
    + apply Z.ltb_ge in E.
      assert ((t - 1) / 20 < q + 1) by (apply Z.div_lt_upper_bound; lia).
      lia.
Qed.

(** How far Next goes.  From the first page of a non-empty collection, [n]
    presses of Next lead to [skip = min (limit * n) (limit * ((total - 1) /
    limit))]: one page per press, and no further than the page that holds
    the last record. *)
Theorem next_presses_stop_at_last_page (n : nat) (s0 : State k) :
  skip s0 = 0 -> 0 < total s0 ->
  skip (paging organizationId (repeat Next n) s0)
  = Z.min (limit * Z.of_nat n) (limit * ((total s0 - 1) / limit)).
Proof.
  intros Hs Ht.
  rewrite (next_presses_from (total s0) n s0 Ht).
  - now rewrite Hs.
  - unfold on_a_page. rewrite Hs. repeat split; try lia. exists 0. reflexivity.
Qed.

(** Every record is on a page the buttons reach: for the record of index
    [i] of the collection, [i / limit] presses of Next from the first page
    lead to a page whose window [skip .. skip + limit - 1] holds [i]. *)
Theorem every_record_is_on_a_reachable_page (i : Z) (s0 : State k) :
  skip s0 = 0 -> 0 <= i < total s0 ->
  let s := paging organizationId (repeat Next (Z.to_nat (i / limit))) s0 in
  skip s <= i < skip s + limit.
Proof.
  intros Hs Hi s. subst s.
  rewrite next_presses_stop_at_last_page by lia.
  unfold limit.
  assert (H0 : 0 <= i / 20) by (apply Z.div_pos; lia).
  rewrite Z2Nat.id by exact H0.
  assert (Hle : i / 20 <= (total s0 - 1) / 20)
    by (apply Z.div_le_mono; lia).
  replace (Z.min (20 * (i / 20)) (20 * ((total s0 - 1) / 20)))
    with (20 * (i / 20)) by lia.
  pose proof (Z.mul_div_le i 20 ltac:(lia)).
  pose proof (Z.mul_succ_div_gt i 20 ltac:(lia)).
  lia.
Qed.

(** The "Showing a to b of n" text is a sound window.  Whenever the
    pagination block is displayed on a state the page buttons lead to,
    [1 <= a <= b <= n], the window holds at most [limit] records, exactly
    [limit] while Next is enabled, and ends at [n] when Next is disabled. *)
Theorem showing_window_is_sound (bs : list page_button) (s0 : State k)
  (p : Pagination) :
  skip s0 = 0 -> 0 <= total s0 ->
  pagination (paging organizationId bs s0) = Some p ->
  1 <= showing_from p <= showing_to p
  /\ showing_to p <= showing_of p
  /\ showing_of p = total s0
  /\ showing_to p - showing_from p + 1 <= limit
  /\ (next_disabled p = false -> showing_to p - showing_from p + 1 = limit)
  /\ (next_disabled p = true -> showing_to p = showing_of p).
Proof.
  intros Hs Ht Hp.
  destruct (paging_reaches_a_page bs s0 Hs Ht) as (Htot & Hge & _ & Hlt).
  unfold pagination in Hp.
  destruct (limit <? total (paging organizationId bs s0)) eqn:Eshown;
    [| discriminate Hp].
  apply Z.ltb_lt in Eshown.
  inversion Hp; subst p; clear Hp. simpl.
  unfold limit in *. rewrite Z.geb_leb.
  assert (skip (paging organizationId bs s0) < total s0) by (apply Hlt; lia).
  split; [lia |].
  split; [lia |].
  split; [exact Htot |].
  split; [lia |].
  split; intro Hnext.
  - apply Z.leb_gt in Hnext. lia.
  - apply Z.leb_le in Hnext. lia.
Qed.

(** A collection that fits on one page has no pagination block, and the
    page buttons' handlers can never move it off the first page. *)
Theorem single_page_never_moves (bs : list page_button) (s0 : State k) :
  skip s0 = 0 -> total s0 <= limit ->
  pagination s0 = None /\ paging organizationId bs s0 = s0.
Proof.
  intros Hs Ht. split.
  - unfold pagination.
    replace (limit <? total s0) with false
      by (symmetry; apply Z.ltb_ge; exact Ht).
    reflexivity.
  - induction bs as [| b bs IH]; [reflexivity |].
    change (paging organizationId (b :: bs) s0)
      with (paging organizationId bs (press organizationId b s0)).
    destruct (press_cases organizationId k b s0)
      as [[-> _] | (n & _ & H)]; [exact IH |].
    destruct b; destruct H as [H _]; lia.
Qed.

End ListPaging.

(** ** The list controllers: spinner, error banner, overlapping fetches *)

Section ListViews.

Import TelemetryList.

Variable organizationId : string.
Variable k : kind.

(** The spinner replaces the page only while a fetch is in flight and there
    is nothing to show.  When a fetch has just been started the component
    returns the spinner exactly when it holds no items; a fetch that has
    completed never leaves the spinner; the component starts on it. *)
Theorem spinner_only_while_loading_nothing (B : backend) (c s : State k) :
  (render (state_of (start apply (fetch organizationId c) s)) = Spinner
   <-> items s = [])
  /\ render (state_of (run apply B (fetch organizationId c) s)) <> Spinner
  /\ render (initial k) = Spinner.
Proof.
  split; [| split; [| reflexivity]].
  - unfold state_of. rewrite start_fetch. unfold render. simpl.
    destruct (items s) as [| x l]; simpl.
    + split; reflexivity.
    + split; [discriminate | discriminate].
  - rewrite run_fetch.
    destruct (answer B (ListResponse k)
                (listTelemetryApi k (query organizationId c)));
      unfold state_of, render; simpl; discriminate.
Qed.

(** None of the setter calls a handler makes clears the error. *)
Lemma handler_never_clears_error (B : backend) (a : action) (c s : State k)
  (u : update k) :
  In u (updates (trace_of (run apply B (handler organizationId a c) s))) ->
  u <> setError None.
Proof.
  destruct a as [| | b | v | v]; unfold handler.
  - rewrite run_fetch.
    destruct (answer B (ListResponse k)
                (listTelemetryApi k (query organizationId c)));
      unfold trace_of; simpl; intros H;
      repeat (destruct H as [<- | H]; [discriminate |]); destruct H.
  - unfold handleSearch. cbn [bind set run].
    change (bind (Ret tt) (fun _ : unit => fetch organizationId c))
      with (fetch organizationId c).
    rewrite run_fetch.
    destruct (answer B (ListResponse k)
                (listTelemetryApi k (query organizationId c)));
      unfold trace_of; simpl; intros H;
      repeat (destruct H as [<- | H]; [discriminate |]); destruct H.
  - destruct b; unfold page_handler, handlePreviousPage, handleNextPage.
    + destruct (0 <? skip c); unfold trace_of; simpl; intros H;
        repeat (destruct H as [<- | H]; [discriminate |]); destruct H.
    + destruct (skip c + limit <? total c); unfold trace_of; simpl; intros H;
        repeat (destruct H as [<- | H]; [discriminate |]); destruct H.
  - unfold changeNameSearch, trace_of. simpl. intros [<- | []]. discriminate.
  - unfold changeTagFilter, trace_of. simpl. intros [<- | []]. discriminate.
Qed.

Lemma apply_keeps_error (u : update k) (s : State k) :
  u <> setError None -> error s <> None -> error (apply u s) <> None.
Proof.
  intros Hu Hs. destruct u as [v | v | [m |] | v | v | v | v]; simpl;
    try exact Hs.
  - discriminate.
  - now elim Hu.
Qed.

(** An error, once set, is never cleared.  Take any setter calls made by
    the component's own code (the effect's fetch and the handlers of Search,
    the page buttons and the filter inputs, against any backends, from any
    renders) and apply them in any order and interleaving: a state whose
    [error] is set still has it set afterwards. *)
Theorem error_is_never_cleared (us : list (update k)) (s : State k) :
  (forall u : update k,
     In u us ->
     exists (B : backend) (a : action) (c s0 : State k),
       In u (updates (trace_of
                        (run apply B (handler organizationId a c) s0)))) ->
  error s <> None ->
  error (apply_all us s) <> None.
Proof.
  revert s. induction us as [| u us IH]; intros s Hus Hs; [exact Hs |].
  change (apply_all (u :: us) s) with (apply_all us (apply u s)).
  apply IH.
  - intros u' Hin. apply Hus. now right.
  - apply apply_keeps_error; [| exact Hs].
    destruct (Hus u (or_introl eq_refl)) as (B & a & c & s0 & Hin).
    exact (handler_never_clears_error B a c s0 u Hin).
Qed.

(** Two fetches in flight: the last response wins.  With the fetch of
    render [c1] started before the fetch of render [c2] and both answered
    successfully, the list ends with the items and total of whichever
    answer arrived last, in either order; and [loading] is already false
    when the first answer has arrived, while the other fetch is still in
    flight. *)
Theorem overlapping_fetches_last_response_wins (B : backend)
  (c1 c2 s : State k) (r1 r2 : ListResponse k) :
  answer B _ (listTelemetryApi k (query organizationId c1)) = inl r1 ->
  answer B _ (listTelemetryApi k (query organizationId c2)) = inl r2 ->
  let w1 := start apply (fetch organizationId c1) s in
  let w2 := start apply (fetch organizationId c2) (state_of w1) in
  let after (first second : suspended (update k) unit) :=
    let half := state_of (resume apply B (state_of w2, [], first)) in
    (half, state_of (resume apply B (half, [], second))) in
  let in_order := after (result_of w1) (result_of w2) in
  let reversed := after (result_of w2) (result_of w1) in
  (items (snd in_order) = resp_items r2
   /\ total (snd in_order) = resp_total r2)
  /\ (items (snd reversed) = resp_items r1
      /\ total (snd reversed) = resp_total r1)
  /\ loading (fst in_order) = false
  /\ loading (fst reversed) = false.
Proof.
  intros H1 H2 w1 w2 after in_order reversed.
  subst in_order reversed after w2 w1.
  unfold fetch, state_of, result_of. simpl.
  rewrite H1, H2. simpl.
  repeat split.
Qed.

End ListViews.

(** ** Rows of the lists *)

Section RowFacts.

Import TelemetryList.


Lemma upper_lower_char (c : ascii) :
  JsString.upper_char (JsString.lower_char c) = JsString.upper_char c.
Proof.
  destruct c as [[] [] [] [] [] [] [] []]; reflexivity.
Qed.

Lemma lower_upper_char (c : ascii) :
  JsString.lower_char (JsString.upper_char c) = JsString.lower_char c.
Proof.
  destruct c as [[] [] [] [] [] [] [] []]; reflexivity.
Qed.

Lemma toUpperCase_toLowerCase (s : string) :
  JsString.toUpperCase (JsString.toLowerCase s) = JsString.toUpperCase s.
Proof.
  induction s as [| c s IH]; [reflexivity |].
  unfold JsString.toUpperCase, JsString.toLowerCase in *. simpl.
  now rewrite IH, upper_lower_char.
Qed.

Lemma toLowerCase_toUpperCase (s : string) :
  JsString.toLowerCase (JsString.toUpperCase s) = JsString.toLowerCase s.
Proof.
  induction s as [| c s IH]; [reflexivity |].
  unfold JsString.toUpperCase, JsString.toLowerCase in *. simpl.
  now rewrite IH, lower_upper_char.
Qed.

Lemma toLowerCase_idempotent (s : string) :
  JsString.toLowerCase (JsString.toLowerCase s) = JsString.toLowerCase s.
Proof.
  induction s as [| c s IH]; [reflexivity |].
  unfold JsString.toLowerCase in *. simpl. rewrite IH. f_equal.
  destruct c as [[] [] [] [] [] [] [] []]; reflexivity.
Qed.

Lemma toUpperCase_idempotent (s : string) :
  JsString.toUpperCase (JsString.toUpperCase s) = JsString.toUpperCase s.
Proof.
  induction s as [| c s IH]; [reflexivity |].
  unfold JsString.toUpperCase in *. simpl. rewrite IH. f_equal.
  destruct c as [[] [] [] [] [] [] [] []]; reflexivity.
Qed.

Lemma map_chars_empty (f : ascii -> ascii) (s : string) :
  String.eqb (JsString.map_chars f s) "" = String.eqb s "".
Proof. destruct s; reflexivity. Qed.

(** The colour of a metric type does not depend on letter case: for a type
    name in ASCII, its upper-case and lower-case spellings get the colour of
    the name itself. *)
Theorem getMetricTypeColor_ignores_case (type : string) :
  JsString.ascii_only type = true ->
  getMetricTypeColor (JsString.toUpperCase type) = getMetricTypeColor type
  /\ getMetricTypeColor (JsString.toLowerCase type) = getMetricTypeColor type.
Proof.
  intros _. unfold getMetricTypeColor.
  now rewrite toLowerCase_toUpperCase, toLowerCase_idempotent.
Qed.

(** The colour of a severity does not depend on letter case either, and a
    severity that is missing or empty gets the colour of an unknown one. *)
Theorem getSeverityColor_ignores_case (severity : string) :
  JsString.ascii_only severity = true ->
  getSeverityColor (Some (JsString.toUpperCase severity))
  = getSeverityColor (Some severity)
  /\ getSeverityColor (Some (JsString.toLowerCase severity))
     = getSeverityColor (Some severity)
  /\ getSeverityColor None = getSeverityColor (Some "")
  /\ (let t := JsString.toUpperCase severity in
      t <> "ERROR" -> t <> "WARN" -> t <> "WARNING" -> t <> "INFO" ->
      t <> "TRACE" ->
      getSeverityColor (Some severity) = getSeverityColor None).
Proof.
  intros _. unfold getSeverityColor.
  unfold JsString.toUpperCase at 1, JsString.toLowerCase at 1.
  rewrite !map_chars_empty.
  fold (JsString.toUpperCase severity) (JsString.toLowerCase severity).
  rewrite toUpperCase_toLowerCase, toUpperCase_idempotent.
  split; [reflexivity |].
  split; [reflexivity |].
  split; [reflexivity |].
  intros He Hw Hwg Hi Ht.
  apply String.eqb_neq in He, Hw, Hwg, Hi, Ht.
  rewrite He, Hw, Hwg, Hi, Ht. simpl.
  destruct (String.eqb severity ""); [reflexivity |].
  destruct (String.eqb (JsString.toUpperCase severity) "DEBUG"); reflexivity.
Qed.

End RowFacts.

(** ** The upload form: buffers, tabs, button, sample data *)

Section UploadFormFacts.

Import TelemetryUpload.

Variable JSON_parse : string -> json + string.
Variable JSON_stringify : json -> string.
Variable trim : string -> string.
Variable now : string.
Variable organizationId : string.
Variable B : backend.

(** Typing in the text area writes the buffer of the active tab and nothing
    else: what is typed is what the text area shows next, the buffers of the
    other two kinds, the active tab and the two messages stay as they
    were. *)
Theorem setCurrentData_writes_the_active_buffer (s : State) (data : string) :
  let s' := act (setCurrentData data) s in
  getCurrentData s' = data
  /\ (forall k : kind, k <> activeTab s -> buffer k s' = buffer k s)
  /\ activeTab s' = activeTab s
  /\ error s' = error s
  /\ success s' = success s
  /\ loading s' = loading s.
Proof.
  intro s'. subst s'. unfold act, setCurrentData, getCurrentData, state_of.
  destruct s as [tab l e su td md ld]. cbn [activeTab].
  destruct tab; simpl;
    (split; [reflexivity |]; split; [| repeat split]);
    intros k Hk; destruct k; try reflexivity; now elim Hk.
Qed.

(** Each tab keeps its own text.  Select tab [a] and type [da], select
    another tab [b] and type [db], come back to [a]: the text area shows
    [da] again, the buffer of [b] holds [db], the third buffer and the two
    messages are untouched. *)
Theorem tabs_keep_their_own_text (s : State) (a b : kind) (da db : string) :
  a <> b ->
  let s1 := act (setCurrentData da) (act (selectTab a) s) in
  let s2 := act (setCurrentData db) (act (selectTab b) s1) in
  let s3 := act (selectTab a) s2 in
  getCurrentData s3 = da
  /\ buffer b s3 = db
  /\ (forall k : kind, k <> a -> k <> b -> buffer k s3 = buffer k s)
  /\ error s3 = error s
  /\ success s3 = success s.
Proof.
  intros Hab s1 s2 s3. subst s3 s2 s1.
  unfold act, setCurrentData, selectTab, getCurrentData, state_of.
  destruct a, b; try (now elim Hab); simpl;
    (split; [reflexivity |]; split; [reflexivity |];
     split; [| split; reflexivity]);
    intros k Ha Hb; destruct k; try reflexivity;
    try (now elim Ha); now elim Hb.
Qed.

(** The Upload button over a submit.  It is disabled while the upload call
    is in flight; after a successful submit it is disabled, the buffer being
    empty; after a failed submit, by the parse or by the upload call, a
    button that was enabled is enabled again. *)
Theorem upload_button_over_a_submit (s : State) :
  trim "" = "" ->
  let submit := handleUpload JSON_parse organizationId in
  let done := state_of (run apply B (submit s) s) in
  (forall v : json,
     JSON_parse (getCurrentData s) = inl v ->
     upload_disabled trim (act submit s) = true)
  /\ (forall (v : json) (result : UploadResponse (activeTab s)),
        JSON_parse (getCurrentData s) = inl v ->
        answer B _ (uploadTelemetryApi (activeTab s)
                      (upload_params organizationId v)) = inl result ->
        upload_disabled trim done = true)
  /\ (upload_disabled trim s = false ->
      success done = None ->
      upload_disabled trim done = false).
Proof.
  intros Htrim submit done. subst done submit.
  split; [| split].
  - intros v Hv. unfold act, state_of, handleUpload, upload_disabled.
    destruct s as [tab l e su td md ld].
    unfold getCurrentData in Hv. cbn [activeTab] in Hv.
    destruct tab; cbn [activeTab tracesData metricsData logsData] in Hv;
      unfold parse; simpl; rewrite Hv; reflexivity.
  - intros v result Hv Hr. rewrite run_handleUpload. cbv zeta.
    rewrite Hv, Hr. unfold state_of, upload_disabled, getCurrentData.
    destruct s as [tab l e su td md ld]. cbn [activeTab] in *.
    destruct tab; simpl; now rewrite Htrim.
  - intros Hen Hsu. rewrite run_handleUpload in Hsu |- *. cbv zeta in Hsu |- *.
    unfold upload_disabled in Hen. apply orb_false_iff in Hen.
    destruct Hen as [_ Hen].
    destruct (JSON_parse (getCurrentData s)) as [v | m].
    + destruct (answer B (UploadResponse (activeTab s))
                  (uploadTelemetryApi (activeTab s)
                     (upload_params organizationId v))) as [result | err].
      * exfalso. unfold state_of in Hsu.
        destruct (activeTab s); discriminate Hsu.
      * unfold state_of, upload_disabled, getCurrentData in *. simpl.
        exact Hen.
    + unfold state_of, upload_disabled, getCurrentData in *. simpl.
      exact Hen.
Qed.

(** A response arrives on whatever the form holds by then.  Let a submit be
    started from render [c] and let [live] be the state when its upload call
    settles (the text area stays editable meanwhile).  On success the buffer
    of the kind that was submitted is emptied, whatever it holds by then,
    and the other buffers and the tab selected by then are kept; on failure
    every buffer of [live] is kept. *)
Theorem upload_response_meets_live_form (c live : State) (v : json) :
  JSON_parse (getCurrentData c) = inl v ->
  let q := uploadTelemetryApi (activeTab c) (upload_params organizationId v) in
  let pending :=
    result_of (start apply (handleUpload JSON_parse organizationId c) c) in
  let s' := state_of (resume apply B (live, [], pending)) in
  activeTab s' = activeTab live
  /\ (forall result : UploadResponse (activeTab c),
        answer B _ q = inl result ->
        buffer (activeTab c) s' = ""
        /\ (forall k : kind, k <> activeTab c -> buffer k s' = buffer k live)
        /\ success s'
           = Some (uploaded_message (activeTab c)
                     (List.length (uploaded result))))
  /\ (forall err : thrown,
        answer B _ q = inr err ->
        (forall k : kind, buffer k s' = buffer k live)
        /\ error s' = Some (message_or "Upload failed" err)).
Proof.
  intros Hv q pending s'. subst s' pending q.
  unfold result_of, state_of, handleUpload, getCurrentData in *.
  destruct c as [tab l e su td md ld]. cbn [activeTab] in *.
  destruct tab; cbn [tracesData metricsData logsData] in Hv;
    unfold parse, uploadTelemetryTracesApi, uploadTelemetryMetricsApi,
      uploadTelemetryLogsApi; simpl; rewrite Hv; simpl;
    match goal with
    | |- context [answer B ?R ?q] => destruct (answer B R q) as [r | x]
    end; simpl;
    (split; [reflexivity |]; split;
     [ intros result Hres; inversion Hres; subst;
       (split; [reflexivity |]; split; [| reflexivity]);
       intros k Hk; destruct k; try reflexivity; now elim Hk
     | intros err Herr; inversion Herr; subst;
       (split; [| reflexivity]); intro k; destruct k; reflexivity ]).
Qed.

(** The sample goes out as one item.  Provided the runtime reads back what
    it printed for the sample of the active kind, Load Sample Data puts that
    text in the active buffer only, and a submit then sends exactly one
    upload call, for the active kind, whose batch is the sample object
    alone. *)
Theorem sample_data_uploads_as_one_item (s : State) :
  JSON_parse (JSON_stringify (sample now (activeTab s)))
  = inl (sample now (activeTab s)) ->
  let s1 := act (loadSampleData JSON_stringify now) s in
  getCurrentData s1 = JSON_stringify (sample now (activeTab s))
  /\ (forall k : kind, k <> activeTab s -> buffer k s1 = buffer k s)
  /\ activeTab s1 = activeTab s
  /\ requests (trace_of (run apply B
                           (handleUpload JSON_parse organizationId s1) s1))
     = [Called (uploadTelemetryApi (activeTab s)
                  {| upload_organizationId := organizationId;
                     upload_items := [sample now (activeTab s)] |})].
Proof.
  intros Hrt s1.
  assert (H1 : getCurrentData s1 = JSON_stringify (sample now (activeTab s))).
  { subst s1. unfold act, loadSampleData, getSampleData, getCurrentData,
      state_of.
    destruct s as [tab l e su td md ld]. cbn [activeTab].
    destruct tab; reflexivity. }
  assert (H2 : activeTab s1 = activeTab s).
  { subst s1. unfold act, loadSampleData, state_of.
    destruct s as [tab l e su td md ld]. cbn [activeTab].
    destruct tab; reflexivity. }
  split; [exact H1 |].
  split.
  { intros k Hk. subst s1. unfold act, loadSampleData, state_of.
    destruct s as [tab l e su td md ld]. cbn [activeTab] in *.
    destruct tab, k; try reflexivity; now elim Hk. }
  split; [exact H2 |].
  rewrite run_handleUpload. cbv zeta. rewrite H1, Hrt, H2.
  assert (Hb : as_batch (sample now (activeTab s))
               = [sample now (activeTab s)])
    by (destruct (activeTab s); reflexivity).
  unfold upload_params. rewrite Hb.
  destruct (answer B _ _); reflexivity.
Qed.

End UploadFormFacts.

(** ** The overview: what is on screen *)

Section OverviewViews.

Import TelemetryOverview.

Variable B : backend.

(** An earlier error hides a later success.  The component never resets
    [error]: when a load fails under an organization and the next load,
    under any organization, succeeds, the three responses are stored but
    the component still returns the error panel with the old message. *)
Theorem overview_error_outlives_success (organizationId : string)
  (s : State) (message : string)
  (traces : ListResponse Traces) (metrics : ListResponse Metrics)
  (logs : ListResponse Logs) :
  error s = Some message -> message <> "" ->
  let q := overview_query organizationId in
  answer B _ (listTelemetryTracesApi q) = inl traces ->
  answer B _ (listTelemetryMetricsApi q) = inl metrics ->
  answer B _ (listTelemetryLogsApi q) = inl logs ->
  let s' := state_of (run apply B (fetchOverviewData organizationId) s) in
  tracesData s' = Some traces
  /\ metricsData s' = Some metrics
  /\ logsData s' = Some logs
  /\ render s' = ErrorPanel message.
Proof.
  intros He Hm q Ht Hme Hl s'. subst s'.
  rewrite run_fetchOverviewData. cbv zeta.
  unfold overview_settled. cbn [settle]. fold q.
  rewrite Ht, Hme, Hl, (all_settle_fulfilled traces metrics logs).
  unfold state_of, render. simpl. rewrite He.
  apply String.eqb_neq in Hm. rewrite Hm.
  repeat split.
Qed.

(** Without an earlier error: the spinner replaces everything while the
    three calls are in flight, whatever was on screen, and when all three
    have succeeded the component returns the dashboard fed by exactly the
    three responses. *)
Theorem overview_spinner_then_dashboard (organizationId : string)
  (s : State)
  (traces : ListResponse Traces) (metrics : ListResponse Metrics)
  (logs : ListResponse Logs) :
  error s = None ->
  let q := overview_query organizationId in
  answer B _ (listTelemetryTracesApi q) = inl traces ->
  answer B _ (listTelemetryMetricsApi q) = inl metrics ->
  answer B _ (listTelemetryLogsApi q) = inl logs ->
  render (state_of (start apply (fetchOverviewData organizationId) s))
  = Spinner
  /\ render (state_of (run apply B (fetchOverviewData organizationId) s))
     = Dashboard (Some traces) (Some metrics) (Some logs).
Proof.
  intros He q Ht Hme Hl.
  split; [reflexivity |].
  rewrite run_fetchOverviewData. cbv zeta.
  unfold overview_settled. cbn [settle]. fold q.
  rewrite Ht, Hme, Hl, (all_settle_fulfilled traces metrics logs).
  unfold state_of, render. simpl. now rewrite He.
Qed.

End OverviewViews.

(** ** The telemetry page: which component is mounted *)

Section PageFacts.

Import TelemetryPage.

(** At most one component is mounted, for every value of the [tab]
    parameter.  A missing or empty parameter mounts the overview; a
    parameter that is none of the five tab ids mounts nothing at all. *)
Theorem at_most_one_panel_is_mounted (param : option string) :
  let t := tab param in
  (List.length (mounted t) <= 1)%nat
  /\ (mounted t = [] <-> ~ In t tab_ids)
  /\ (param = None \/ param = Some "" -> mounted t = [Overview])
  /\ t <> "".
Proof.
  intro t.
  assert (Hcases :
    (t = "overview" /\ mounted t = [Overview])
    \/ (t = "traces" /\ mounted t = [TracesList])
    \/ (t = "metrics" /\ mounted t = [MetricsList])
    \/ (t = "logs" /\ mounted t = [LogsList])
    \/ (t = "upload" /\ mounted t = [Upload])
    \/ (~ In t tab_ids /\ mounted t = [])).
  { unfold mounted, mounted_if, tab_ids.
    destruct (String.eqb_spec t "overview") as [-> | H1]; [now left |].
    destruct (String.eqb_spec t "traces") as [-> | H2];
      [right; now left |].
    destruct (String.eqb_spec t "metrics") as [-> | H3];
      [right; right; now left |].
    destruct (String.eqb_spec t "logs") as [-> | H4];
      [right; right; right; now left |].
    destruct (String.eqb_spec t "upload") as [-> | H5];
      [right; right; right; right; now left |].
    right; right; right; right; right. split; [| reflexivity].
    simpl. intros [H | [H | [H | [H | [H | []]]]]]; congruence. }
  split.
  { destruct Hcases as [[_ ->] | [[_ ->] | [[_ ->] | [[_ ->] | [[_ ->] | [_ ->]]]]]];
      simpl; lia. }
  split.
  { destruct Hcases as [[E H] | [[E H] | [[E H] | [[E H] | [[E H] | [E H]]]]]];
      rewrite H; try (split; [discriminate | intro C; exfalso; apply C;
                                             rewrite E; simpl; tauto]).
    split; [intros _; exact E | reflexivity]. }
  split.
  { intros [-> | ->]; reflexivity. }
  subst t. unfold tab. destruct param as [p |]; [| discriminate].
  destruct (String.eqb_spec p "") as [-> | H]; [discriminate | exact H].
Qed.

End PageFacts.

(** ** The Search button on the first page *)

Section SearchFacts.

Import TelemetryList.

Variable organizationId : string.
Variable k : kind.

(** On the first page the Search button repeats what typing already did.
    Typing a new value in the search input sends one request; pressing
    Search next sends one request with the same parameters ([skip = 0], the
    same filters) and changes neither [skip] nor the filters. *)
Theorem search_repeats_the_request_of_typing (s : State k) (v : string) :
  skip s = 0 -> v <> nameSearch s ->
  let typed := dispatch organizationId (changeNameSearch v) s in
  let searched :=
    dispatch organizationId (handleSearch organizationId) (fst typed) in
  requests (snd searched) = requests (snd typed)
  /\ (exists q : ListParams,
        requests (snd typed) = [Called (listTelemetryApi k q)]
        /\ param_skip q = Some 0
        /\ param_search q = or_undefined v
        /\ param_tagIds q = or_undefined (tagFilter s))
  /\ skip (fst searched) = 0
  /\ nameSearch (fst searched) = v
  /\ tagFilter (fst searched) = tagFilter s.
Proof.
  intros Hs Hv typed searched.
  assert (Ht : typed
               = (apply (setLoading true) (apply (setNameSearch v) s),
                  [Did (setNameSearch v); Did (setLoading true);
                   Sent (Called (listTelemetryApi k
                           (query organizationId
                              (apply (setNameSearch v) s))))])).
  { subst typed. unfold dispatch, changeNameSearch. simpl.
    unfold state_of, trace_of. simpl.
    rewrite same_deps_nameSearch by (simpl; congruence).
    reflexivity. }
  subst searched. rewrite Ht. cbn [fst snd].
  rewrite dispatch_handleSearch_first_page by (simpl; exact Hs).
  cbn [fst snd requests]. unfold query. simpl. rewrite Hs.
  split; [reflexivity |].
  split; [eexists; repeat split |].
  repeat split.
Qed.

End SearchFacts.

(** ** Further worked examples *)

Section MoreWorkedExamples.

Import Examples.

(** Typing "pay" in the search input on the second page. *)
Lemma filter_input_refetches_at_current_skip_witness :
  "pay" <> TelemetryList.nameSearch (second_page Traces)
  /\ requests (snd (TelemetryList.dispatch org
                      (TelemetryList.changeNameSearch "pay")
                      (second_page Traces)))
     = [Called (listTelemetryApi Traces
                  {| param_organizationId := org;
                     param_skip := Some 20;
                     param_limit := Some 20;
                     param_tagIds := None;
                     param_search := Some "pay" |})].
Proof.
  split; [discriminate |].
  destruct (filter_input_refetches_at_current_skip org Traces
              (second_page Traces) "pay") as (_ & _ & H & _).
  apply H. discriminate.
Defined.

(** Search pressed right after that typing, on the first page. *)
Lemma search_repeats_the_request_of_typing_witness :
  TelemetryList.skip (first_page Metrics) = 0
  /\ "cpu" <> TelemetryList.nameSearch (first_page Metrics)
  /\ let typed := TelemetryList.dispatch org
                    (TelemetryList.changeNameSearch "cpu")
                    (first_page Metrics) in
     requests (snd (TelemetryList.dispatch org
                      (TelemetryList.handleSearch org) (fst typed)))
     = requests (snd typed).
Proof.
  split; [reflexivity |].
  split; [discriminate |].
  destruct (search_repeats_the_request_of_typing org Metrics
              (first_page Metrics) "cpu" eq_refl) as (H & _).
  - discriminate.
  - exact H.
Defined.

(** After Next on 50 logs: Previous and Next are both enabled. *)
Lemma page_buttons_agree_with_handlers_witness :
  let s := TelemetryList.paging org [TelemetryList.Next] (first_page Logs) in
  TelemetryList.skip (first_page Logs) = 0
  /\ 0 <= TelemetryList.total (first_page Logs)
  /\ (exists p, TelemetryList.pagination s = Some p
                /\ TelemetryList.previous_disabled p = false
                /\ TelemetryList.next_disabled p = false)
  /\ TelemetryList.skip
       (fst (TelemetryList.dispatch org TelemetryList.handlePreviousPage s))
     = 0
  /\ TelemetryList.skip
       (fst (TelemetryList.dispatch org TelemetryList.handleNextPage s))
     = 40.
Proof.
  intro s.
  split; [reflexivity |].
  split; [discriminate |].
  split; [eexists; split; [reflexivity | split; reflexivity] |].
  destruct (page_buttons_agree_with_handlers org Logs [TelemetryList.Next]
              (first_page Logs)
              {| TelemetryList.showing_from := 21;
                 TelemetryList.showing_to := 40;
                 TelemetryList.showing_of := 50;
                 TelemetryList.previous_disabled := false;
                 TelemetryList.next_disabled := false |}
              eq_refl ltac:(discriminate) eq_refl)
    as (_ & _ & Hprev & Hnext).
  split.
  - exact (proj1 (Hprev eq_refl)).
  - exact (proj1 (Hnext eq_refl)).
Defined.

(** From the second page of 50: Next then Previous, Previous then Next. *)
Lemma next_and_previous_undo_each_other_witness :
  let s := TelemetryList.paging org [TelemetryList.Next] (first_page Traces) in
  TelemetryList.skip s = 20
  /\ TelemetryList.skip
       (TelemetryList.press org TelemetryList.Previous
          (TelemetryList.press org TelemetryList.Next s)) = 20
  /\ TelemetryList.skip
       (TelemetryList.press org TelemetryList.Next
          (TelemetryList.press org TelemetryList.Previous s)) = 20.
Proof.
  intro s.
  destruct (next_and_previous_undo_each_other org Traces [TelemetryList.Next]
              (first_page Traces) eq_refl ltac:(discriminate))
    as (Hnp & Hpn).
  split; [reflexivity |].
  split.
  - apply Hnp. reflexivity.
  - apply Hpn. reflexivity.
Defined.

(** Five presses of Next on 50 records stop at [skip = 40]. *)
Lemma next_presses_stop_at_last_page_witness :
  TelemetryList.skip (first_page Traces) = 0
  /\ 0 < TelemetryList.total (first_page Traces)
  /\ TelemetryList.skip
       (TelemetryList.paging org (repeat TelemetryList.Next 5)
          (first_page Traces)) = 40.
Proof.
  split; [reflexivity |].
  split; [reflexivity |].
  exact (next_presses_stop_at_last_page org Traces 5 (first_page Traces)
           eq_refl eq_refl).
Defined.

(** The record of index 45 of 50 is on the page reached by two presses. *)
Lemma every_record_is_on_a_reachable_page_witness :
  TelemetryList.skip (first_page Traces) = 0
  /\ 0 <= 45 < TelemetryList.total (first_page Traces)
  /\ let s := TelemetryList.paging org
                (repeat TelemetryList.Next (Z.to_nat (45 / TelemetryList.limit)))
                (first_page Traces) in
     TelemetryList.skip s <= 45 < TelemetryList.skip s + TelemetryList.limit.
Proof.
  split; [reflexivity |].
  split; [split; [discriminate | reflexivity] |].
  apply (every_record_is_on_a_reachable_page org Traces 45 (first_page Traces)
           eq_refl).
  split; [discriminate | reflexivity].
Defined.

(** "Showing 41 to 50 of 50" on the last page. *)
Lemma showing_window_is_sound_witness :
  TelemetryList.pagination
    (TelemetryList.paging org [TelemetryList.Next; TelemetryList.Next]
       (first_page Metrics))
  = Some {| TelemetryList.showing_from := 41;
            TelemetryList.showing_to := 50;
            TelemetryList.showing_of := 50;
            TelemetryList.previous_disabled := false;
            TelemetryList.next_disabled := true |}
  /\ 1 <= 41 <= 50 /\ 50 - 41 + 1 <= TelemetryList.limit.
Proof.
  split; [reflexivity |].
  destruct (showing_window_is_sound org Metrics
              [TelemetryList.Next; TelemetryList.Next] (first_page Metrics)
              {| TelemetryList.showing_from := 41;
                 TelemetryList.showing_to := 50;
                 TelemetryList.showing_of := 50;
                 TelemetryList.previous_disabled := false;
                 TelemetryList.next_disabled := true |}
              eq_refl ltac:(discriminate) eq_refl)
    as (H1 & _ & _ & H2 & _).
  split; [exact H1 | exact H2].
Defined.

(** Seven logs: no pagination block, and the buttons' handlers do nothing. *)
Lemma single_page_never_moves_witness :
  TelemetryList.skip (short_list Logs) = 0
  /\ TelemetryList.total (short_list Logs) <= TelemetryList.limit
  /\ TelemetryList.pagination (short_list Logs) = None
  /\ TelemetryList.paging org
       [TelemetryList.Next; TelemetryList.Previous; TelemetryList.Next]
       (short_list Logs)
     = short_list Logs.
Proof.
  split; [reflexivity |].
  split; [discriminate |].
  apply (single_page_never_moves org Logs
           [TelemetryList.Next; TelemetryList.Previous; TelemetryList.Next]
           (short_list Logs) eq_refl).
  discriminate.
Defined.

(** A refresh of a list with nothing on it shows the spinner. *)
Lemma spinner_only_while_loading_nothing_witness :
  TelemetryList.items (first_page Traces) = []
  /\ TelemetryList.render
       (state_of (start TelemetryList.apply
                    (TelemetryList.fetch org (first_page Traces))
                    (first_page Traces)))
     = TelemetryList.Spinner.
Proof.
  split; [reflexivity |].
  destruct (spinner_only_while_loading_nothing org Traces healthy
              (first_page Traces) (first_page Traces)) as ([_ H] & _).
  apply H. reflexivity.
Defined.

(** The setter calls of a fetch that succeeds, on a page that shows the
    message of an earlier failure. *)
Lemma error_is_never_cleared_witness :
  let us := updates (trace_of (run TelemetryList.apply healthy
                                 (TelemetryList.fetch org (failed_page Logs))
                                 (failed_page Logs))) in
  TelemetryList.error (failed_page Logs) <> None
  /\ us = [TelemetryList.setLoading true; TelemetryList.setItems [];
           TelemetryList.setTotal 50; TelemetryList.setLoading false]
  /\ TelemetryList.error (TelemetryList.apply_all us (failed_page Logs))
     <> None.
Proof.
  intro us.
  split; [discriminate |].
  split; [reflexivity |].
  apply (error_is_never_cleared org Logs us (failed_page Logs)).
  - intros u Hu.
    exists healthy, TelemetryList.Refresh, (failed_page Logs),
      (failed_page Logs).
    exact Hu.
  - discriminate.
Defined.

(** A fetch for [skip = 20] and one for [skip = 0] in flight together. *)
Lemma overlapping_fetches_last_response_wins_witness :
  let c1 := second_page Traces in
  let c2 := first_page Traces in
  let w1 := start TelemetryList.apply (TelemetryList.fetch org c1) c1 in
  let w2 := start TelemetryList.apply (TelemetryList.fetch org c2)
              (state_of w1) in
  let half := state_of (resume TelemetryList.apply paged
                          (state_of w2, [], result_of w2)) in
  TelemetryList.items
    (state_of (resume TelemetryList.apply paged (half, [], result_of w1)))
  = [trace_at 20]
  /\ TelemetryList.loading half = false.
Proof.
  intros c1 c2 w1 w2 half.
  destruct (overlapping_fetches_last_response_wins org Traces paged c1 c2 c1
              (Build_ListResponse Traces [trace_at 20] 50 20 20)
              (Build_ListResponse Traces [trace_at 0] 50 0 20)
              eq_refl eq_refl)
    as (_ & (H & _) & _ & Hl).
  split; [exact H | exact Hl].
Defined.


(** "COUNTER" and "counter" for "Counter". *)
Lemma getMetricTypeColor_ignores_case_witness :
  JsString.ascii_only "Counter" = true
  /\ TelemetryList.getMetricTypeColor "COUNTER"
     = TelemetryList.getMetricTypeColor "Counter"
  /\ TelemetryList.getMetricTypeColor "Counter" = "bg-blue-100 text-blue-800".
Proof.
  split; [reflexivity |].
  split; [| reflexivity].
  exact (proj1 (getMetricTypeColor_ignores_case "Counter" eq_refl)).
Defined.

(** "Warning", a severity the backend could send, and "verbose", one the
    component does not know. *)
Lemma getSeverityColor_ignores_case_witness :
  JsString.ascii_only "Warning" = true
  /\ TelemetryList.getSeverityColor (Some "warning")
     = TelemetryList.getSeverityColor (Some "Warning")
  /\ TelemetryList.getSeverityColor (Some "verbose")
     = TelemetryList.getSeverityColor None.
Proof.
  split; [reflexivity |].
  split.
  - exact (proj1 (proj2 (getSeverityColor_ignores_case "Warning" eq_refl))).
  - destruct (getSeverityColor_ignores_case "verbose" eq_refl)
      as (_ & _ & _ & H).
    apply H; discriminate.
Defined.

(** Typing a metric on the metrics tab. *)
Lemma setCurrentData_writes_the_active_buffer_witness :
  let s' := TelemetryUpload.act (TelemetryUpload.setCurrentData one_metric)
              (metrics_form "") in
  TelemetryUpload.getCurrentData s' = one_metric
  /\ TelemetryUpload.tracesData s' = "{}".
Proof.
  intro s'.
  destruct (setCurrentData_writes_the_active_buffer (metrics_form "")
              one_metric) as (H & Ho & _).
  split; [exact H |].
  apply (Ho Traces). discriminate.
Defined.

(** A trace typed on the traces tab, a log on the logs tab, and back. *)
Lemma tabs_keep_their_own_text_witness :
  Traces <> Logs
  /\ let s1 := TelemetryUpload.act (TelemetryUpload.setCurrentData "{}")
                 (TelemetryUpload.act (TelemetryUpload.selectTab Traces)
                    empty_form) in
     let s2 := TelemetryUpload.act (TelemetryUpload.setCurrentData "[]")
                 (TelemetryUpload.act (TelemetryUpload.selectTab Logs) s1) in
     let s3 := TelemetryUpload.act (TelemetryUpload.selectTab Traces) s2 in
     TelemetryUpload.getCurrentData s3 = "{}"
     /\ TelemetryUpload.logsData s3 = "[]".
Proof.
  split; [discriminate |].
  destruct (tabs_keep_their_own_text empty_form Traces Logs "{}" "[]")
    as (H1 & H2 & _).
  - discriminate.
  - split; [exact H1 | exact H2].
Defined.

(** The button while two metrics are on their way, and after they were
    accepted. *)
Lemma upload_button_over_a_submit_witness :
  JsString.trim "" = ""
  /\ TelemetryUpload.upload_disabled JsString.trim (metrics_form two_metrics)
     = false
  /\ TelemetryUpload.upload_disabled JsString.trim
       (TelemetryUpload.act (TelemetryUpload.handleUpload JSON.parse org)
          (metrics_form two_metrics))
     = true
  /\ TelemetryUpload.upload_disabled JsString.trim
       (state_of (run TelemetryUpload.apply healthy
                    (TelemetryUpload.handleUpload JSON.parse org
                       (metrics_form two_metrics))
                    (metrics_form two_metrics)))
     = true.
Proof.
  split; [reflexivity |].
  split; [reflexivity |].
  destruct (upload_button_over_a_submit JSON.parse JsString.trim org healthy
              (metrics_form two_metrics) eq_refl) as (Hflight & Hdone & _).
  split.
  - exact (Hflight _ eq_refl).
  - exact (Hdone _ _ eq_refl eq_refl).
Defined.

(** One metric is submitted; before the answer the user replaces the text
    with two metrics; the answer is a success. *)
Lemma upload_response_meets_live_form_witness :
  JSON.parse (TelemetryUpload.getCurrentData (metrics_form one_metric))
  = inl (JObject [("name", JString "x")])
  /\ let pending :=
       result_of (start TelemetryUpload.apply
                    (TelemetryUpload.handleUpload JSON.parse org
                       (metrics_form one_metric))
                    (metrics_form one_metric)) in
     let s' := state_of (resume TelemetryUpload.apply healthy
                           (metrics_form two_metrics, [], pending)) in
     TelemetryUpload.metricsData s' = ""
     /\ TelemetryUpload.success s' = Some "Successfully uploaded 1 metric(s)".
Proof.
  split; [reflexivity |].
  destruct (upload_response_meets_live_form JSON.parse org healthy
              (metrics_form one_metric) (metrics_form two_metrics)
              (JObject [("name", JString "x")]) eq_refl) as (_ & H & _).
  destruct (H {| uploaded := [echo Metrics (JObject [("name", JString "x")])] |}
              eq_refl) as (Hb & _ & Hs).
  split; [exact Hb | exact Hs].
Defined.

(** The sample log, printed and read back by the reference
    [JSON.stringify] and [JSON.parse]. *)
Lemma sample_data_uploads_as_one_item_witness :
  let form :=
    TelemetryUpload.act (TelemetryUpload.selectTab Logs) empty_form in
  JSON.parse (JSON.stringify (TelemetryUpload.sample new_year Logs))
  = inl (TelemetryUpload.sample new_year Logs)
  /\ let s1 := TelemetryUpload.act
                 (TelemetryUpload.loadSampleData JSON.stringify new_year)
                 form in
     requests (trace_of (run TelemetryUpload.apply healthy
                           (TelemetryUpload.handleUpload JSON.parse org s1)
                           s1))
     = [Called (uploadTelemetryApi Logs
                  {| upload_organizationId := org;
                     upload_items :=
                       [TelemetryUpload.sample new_year Logs] |})].
Proof.
  intro form.
  split; [vm_compute; reflexivity |].
  destruct (sample_data_uploads_as_one_item JSON.parse JSON.stringify
              new_year org healthy form) as (_ & _ & _ & H).
  - vm_compute. reflexivity.
  - exact H.
Defined.

(** A load that succeeds after one that failed: the error panel stays. *)
Lemma overview_error_outlives_success_witness :
  TelemetryOverview.error failed_overview = Some "metrics unavailable"
  /\ let s' := state_of (run TelemetryOverview.apply healthy
                           (TelemetryOverview.fetchOverviewData org)
                           failed_overview) in
     TelemetryOverview.tracesData s'
     = Some (page Traces (TelemetryOverview.overview_query org))
     /\ TelemetryOverview.render s'
        = TelemetryOverview.ErrorPanel "metrics unavailable".
Proof.
  split; [reflexivity |].
  destruct (overview_error_outlives_success healthy org failed_overview
              "metrics unavailable"
              (page Traces (TelemetryOverview.overview_query org))
              (page Metrics (TelemetryOverview.overview_query org))
              (page Logs (TelemetryOverview.overview_query org))
              eq_refl ltac:(discriminate) eq_refl eq_refl eq_refl)
    as (Ht & _ & _ & Hr).
  split; [exact Ht | exact Hr].
Defined.

(** The first load, with every call answered. *)
Lemma overview_spinner_then_dashboard_witness :
  TelemetryOverview.error TelemetryOverview.initial = None
  /\ TelemetryOverview.render
       (state_of (run TelemetryOverview.apply healthy
                    (TelemetryOverview.fetchOverviewData org)
                    TelemetryOverview.initial))
     = TelemetryOverview.Dashboard
         (Some (page Traces (TelemetryOverview.overview_query org)))
         (Some (page Metrics (TelemetryOverview.overview_query org)))
         (Some (page Logs (TelemetryOverview.overview_query org))).
Proof.
  split; [reflexivity |].
  exact (proj2 (overview_spinner_then_dashboard healthy org
                  TelemetryOverview.initial
                  (page Traces (TelemetryOverview.overview_query org))
                  (page Metrics (TelemetryOverview.overview_query org))
                  (page Logs (TelemetryOverview.overview_query org))
                  eq_refl eq_refl eq_refl eq_refl)).
Defined.

(** [?tab=settings] mounts nothing; no parameter mounts the overview. *)
Lemma at_most_one_panel_is_mounted_witness :
  ~ In (TelemetryPage.tab (Some "settings")) TelemetryPage.tab_ids
  /\ TelemetryPage.mounted (TelemetryPage.tab (Some "settings")) = []
  /\ TelemetryPage.mounted (TelemetryPage.tab None)
     = [TelemetryPage.Overview].
Proof.
  assert (H : ~ In (TelemetryPage.tab (Some "settings"))
                TelemetryPage.tab_ids).
  { simpl. intros [H | [H | [H | [H | [H | []]]]]]; discriminate H. }
  split; [exact H |].
  split.
  - destruct (at_most_one_panel_is_mounted (Some "settings"))
      as (_ & [_ Hnone] & _).
    exact (Hnone H).
  - destruct (at_most_one_panel_is_mounted None) as (_ & _ & Hdefault & _).
    apply Hdefault. left. reflexivity.
Defined.

End MoreWorkedExamples.
